(** * Settings reconciliation of the conrep and hprcu Ansible modules

    A shallow embedding of [library/conrep.py] (flat adapter) and
    [library/hprcu.py] (structured adapter), Python 3 branch of the
    [sys.version_info] tests.

    - Python values that reach the code are [None] or a [str]: [pyval].
    - A [dict] is an insertion-ordered association list ([odict]); the order
      is observable (which unknown key is reported, which difference ends a
      scan), so it is kept.
    - An [xml.etree.ElementTree.Element] is a rose tree [Element].  The
      serializer and the parser of the XML library are an interface
      ([ElementTreeLib]); they may raise.
    - Exceptions are values of [exn]; a function that may raise returns
      [except A].  Code that runs the vendor tool threads a state holding the
      list of invocations made so far and the module's [result] dictionary. *)

From stdpp Require Import base list strings option pretty sorting.
From Stdlib Require Import ZArith Ascii.

Set Warnings "-register-all".

(** ** Python primitives shared by both modules *)
Module Py.

(** [None] or a string. *)
Abbreviation pyval := (option string) (only parsing).

(** ['{}'.format(v)] and [str(v)]. *)
Definition str (v : pyval) : string := default "None" v.

Definition dquote : string := String (ascii_of_nat 34) EmptyString.
Definition newline : string := String (ascii_of_nat 10) EmptyString.

Inductive exn :=
| ConrepError (msg : string)
| HprcuError (msg : string)
| NameError (name : string)          (* name 'x' is not defined *)
| AttributeError (attr : string)     (* 'NoneType' object has no attribute 'x' *)
| KeyError
| TypeError
| ParseError.

Inductive except (A : Type) :=
| Ok (a : A)
| Raise (e : exn).
Arguments Ok {A} a.
Arguments Raise {A} e.

#[export] Instance except_ret : MRet except := @Ok.
#[export] Instance except_bind : MBind except := λ A B f m,
  match m with Ok a => f a | Raise e => Raise e end.

(** A [for] loop whose body may raise; [s] is what the loop updates. *)
Fixpoint for_each {A S : Type} (body : S → A → except S) (s : S) (l : list A)
  : except S :=
  match l with
  | [] => Ok s
  | x :: l' => s' ← body s x; for_each body s' l'
  end.

(** *** Insertion-ordered dictionaries *)
Abbreviation odict K V := (list (K * V)) (only parsing).

Section odict.
Context {K V : Type} `{EqDecision K}.

Definition keys (d : odict K V) : list K := d.*1.

(** Every Python dict has pairwise distinct keys. *)
Definition wf (d : odict K V) : Prop := NoDup (keys d).

Fixpoint dict_lookup (k : K) (d : odict K V) : option V :=
  match d with
  | [] => None
  | (k', v) :: d' => if decide (k' = k) then Some v else dict_lookup k d'
  end.

(** [k in d] *)
Definition contains (d : odict K V) (k : K) : bool :=
  bool_decide (is_Some (dict_lookup k d)).

(** [d[k]] *)
Definition getitem (d : odict K V) (k : K) : except V :=
  match dict_lookup k d with
  | Some v => Ok v
  | None => Raise KeyError
  end.

(** [d[k] = v]: an existing key keeps its place, a new one goes last. *)
Fixpoint setitem (k : K) (v : V) (d : odict K V) : odict K V :=
  match d with
  | [] => [(k, v)]
  | (k', v') :: d' =>
      if decide (k' = k) then (k, v) :: d' else (k', v') :: setitem k v d'
  end.

(** [d.update(ys)] *)
Definition update (d ys : odict K V) : odict K V :=
  fold_left (λ acc kv, setitem kv.1 kv.2 acc) ys d.
End odict.

(** Equality of two [pyval]s, Python's [==]. *)
Definition py_eq (a b : pyval) : bool := bool_decide (a = b).

(** *** ElementTree elements *)
Inductive Element := Elem {
  tag : string;
  attrib : odict string pyval;
  text : pyval;
  tail : pyval;
  children : list Element
}.

(** [e.get(k)]: [None] when the attribute is missing. *)
Definition get (e : Element) (k : string) : pyval :=
  default None (dict_lookup k (attrib e)).

(** [e.set(k, v)] *)
Definition set (e : Element) (k : string) (v : pyval) : Element :=
  Elem (tag e) (setitem k v (attrib e)) (text e) (tail e) (children e).

(** [e.find(t)] for a plain tag [t]: the first child with that tag. *)
Fixpoint find_in (t : string) (cs : list Element) : option Element :=
  match cs with
  | [] => None
  | c :: cs' => if decide (tag c = t) then Some c else find_in t cs'
  end.
Definition find (e : Element) (t : string) : option Element :=
  find_in t (children e).

(** [x.text] where [x] came from [find]: [None] has no attributes. *)
Definition text_of (x : option Element) : except pyval :=
  match x with
  | Some c => Ok (text c)
  | None => Raise (AttributeError "text")
  end.

(** [e.find(t).text = v], the assignment through the reference that [find]
    returned: the first child tagged [t] gets the new text. *)
Fixpoint set_text_in (t : string) (v : pyval) (cs : list Element)
  : list Element :=
  match cs with
  | [] => []
  | c :: cs' =>
      if decide (tag c = t)
      then Elem (tag c) (attrib c) v (tail c) (children c) :: cs'
      else c :: set_text_in t v cs'
  end.

(** The parts of [xml.etree.ElementTree] the modules call. *)
Class ElementTreeLib := {
  (** [ET.tostring(e, encoding='unicode')] *)
  ET_tostring : Element → except string;
  (** [ElementTree(e).write(f)], as the text that ends up in [f] *)
  ET_write : Element → except string;
  (** [ET.fromstring(s)] *)
  ET_fromstring : string → except Element
}.

(** *** The vendor tool *)

(** What [Popen(...).communicate()] gives back. *)
Record proc := { returncode : Z; out : string; err : string }.

(** Last argument of the command line: [-s] dumps, [-l] loads. *)
Inductive flag := flag_s | flag_l.

(** One run of the tool: the command before [-f], the flag, and what the
    scratch file held when the tool started. *)
Record invocation := {
  command : list string;
  mode : flag;
  scratch : string
}.

Definition is_load (i : invocation) : bool :=
  match mode i with flag_l => true | flag_s => false end.

(** The machine the module runs on: how the tool answers a dump, what
    [ET.parse] makes of the dumped scratch file, how the tool answers a load
    of a given scratch file. *)
Record host := {
  on_save : proc;
  saved : except Element;
  on_load : string → proc
}.

(** State and exceptions: [S] is threaded, also out of a raise. *)
Definition M (S A : Type) := S → S * except A.

Definition ret {S A} (a : A) : M S A := λ s, (s, Ok a).
Definition bind {S A B} (m : M S A) (k : A → M S B) : M S B :=
  λ s, match m s with
       | (s', Ok a) => k a s'
       | (s', Raise e) => (s', Raise e)
       end.
Definition lift {S A} (r : except A) : M S A := λ s, (s, r).
Definition modify {S} (f : S → S) : M S () := λ s, (f s, Ok ()).

#[export] Instance M_ret {S} : MRet (M S) := λ A, ret.
#[export] Instance M_bind {S} : MBind (M S) := λ A B k m, bind m k.

End Py.

(** ** The flat adapter: [library/conrep.py] *)
Module Conrep.
Import Py.

(** A settings mapping: section name to payload.  A [Section] without a
    [name] attribute has the key [None], an empty one the value [None]. *)
Abbreviation settings_t := (list (pyval * pyval)) (only parsing).

Record params_t := {
  conrep : string;
  facts : bool;
  hwdef : string;
  settings : settings_t;
  settings_xml : string
}.

(** The [AnsibleModule] object, as far as [run_module] reads it. *)
Record module_t := {
  params : params_t;
  _diff : bool;
  check_mode : bool;
  _verbosity : nat
}.

Record diff_t := { before : string; after : string }.

(** The [result] dictionary; [ansible_facts_conrep] is
    [result['ansible_facts']['conrep']], absent until it is assigned. *)
Record result_t := {
  changed : bool;
  ansible_facts_conrep : option settings_t;
  diff : option diff_t;
  debug : option string
}.

(** What [run_module] threads: the tool runs so far and [result]. *)
Record st := { calls : list invocation; result : result_t }.

Definition set_changed (b : bool) (s : st) : st :=
  {| calls := calls s;
     result := {| changed := b;
                  ansible_facts_conrep := ansible_facts_conrep (result s);
                  diff := diff (result s); debug := debug (result s) |} |}.
Definition set_facts (f : settings_t) (s : st) : st :=
  {| calls := calls s;
     result := {| changed := changed (result s);
                  ansible_facts_conrep := Some f;
                  diff := diff (result s); debug := debug (result s) |} |}.
Definition set_diff (d : diff_t) (s : st) : st :=
  {| calls := calls s;
     result := {| changed := changed (result s);
                  ansible_facts_conrep := ansible_facts_conrep (result s);
                  diff := Some d; debug := debug (result s) |} |}.
Definition set_debug (t : string) (s : st) : st :=
  {| calls := calls s;
     result := {| changed := changed (result s);
                  ansible_facts_conrep := ansible_facts_conrep (result s);
                  diff := diff (result s); debug := Some t |} |}.

(** How the run ends: [module.exit_json], [module.fail_json], or an
    exception that [except ConrepError] does not catch. *)
Inductive outcome :=
| exit_json (r : result_t)
| fail_json (msg : string) (r : result_t)
| uncaught (e : exn).

(** [sorted(settings.items())].  Keys are distinct, so the pairs are ordered
    by key alone; Python 3 refuses to order [None] against a [str]. *)
Fixpoint insert_item (x : string * pyval) (l : list (string * pyval))
  : list (string * pyval) :=
  match l with
  | [] => [x]
  | y :: l' => if String.leb x.1 y.1 then x :: l else y :: insert_item x l'
  end.
Definition sort_items (l : list (string * pyval)) : list (string * pyval) :=
  foldr insert_item [] l.
Definition sorted_items (d : settings_t) : except (list (pyval * pyval)) :=
  match d with
  | [] | [_] => Ok d
  | _ =>
      match mapM (λ kv : pyval * pyval, k ← kv.1; Some (k, kv.2)) d with
      | Some l => Ok (prod_map Some id <$> sort_items l)
      | None => Raise TypeError
      end
  end.

Section conrep.
Context `{ElementTreeLib}.

Definition parse_dat (r : Element) : except settings_t :=
  for_each (λ h e,
    if decide (tag e ≠ "Section") then Ok h
    else
      let k := get e "name" in
      v ← (if decide (children e ≠ [])
           then xs ← mapM ET_tostring (children e);
                Ok (Some (String.concat EmptyString xs))
           else Ok (text e));
      Ok (setitem k v h)) [] (children r).

Definition parse_dat_from_string (s : string) : except settings_t :=
  r ← ET_fromstring s; parse_dat r.

(** The host the module runs on. *)
Context (hw : host).

(** [extra_args] is [['-f', f.name, flag]]; the model passes the flag and
    the content of the file named [f.name]. *)
Definition call_conrep (p : params_t) (fl : flag) (file : string)
  : M st () := λ s,
  let r := match fl with flag_s => on_save hw | flag_l => on_load hw file end in
  ({| calls := calls s ++ [ {| command := [conrep p; "-x"; hwdef p];
                               mode := fl; scratch := file |} ];
      result := result s |},
   if decide (returncode r ≠ 0%Z)
   then Raise (ConrepError ("Conrep failed (rc=" +:+ pretty (returncode r)
                 +:+ "): " +:+ out r +:+ " " +:+ err r))
   else Ok ()).

(** [parse_dat_from_filename(f.name)] is [saved hw] run through
    [parse_dat]. *)
Definition read_settings (p : params_t) : M st settings_t :=
  _ ← call_conrep p flag_s EmptyString;
  lift (r ← saved hw; parse_dat r).

(** The text printed into the scratch file. *)
Definition render (settings : settings_t) : string :=
  "<Conrep>" +:+ newline
  +:+ String.concat EmptyString
        ((λ kv : pyval * pyval,
            "<Section name=" +:+ dquote +:+ str kv.1 +:+ dquote +:+ ">"
            +:+ str kv.2 +:+ "</Section>" +:+ newline) <$> settings)
  +:+ "</Conrep>" +:+ newline.

Definition write_settings (p : params_t) (settings : settings_t)
    (check_mode debug : bool) : M st pyval :=
  let f := render settings in
  _ ← (if negb check_mode then call_conrep p flag_l f else mret ());
  mret (if debug then Some f else None).

Definition unknown_msg (k v : pyval) : string :=
  "Setting '" +:+ str k +:+ "' (value: " +:+ str v
  +:+ ") isn't known by conrep - perhaps you need a special hardware "
  +:+ "definition file?".

Definition check_settings (old_settings settings : settings_t)
  : except () :=
  for_each (λ _ kv,
    if negb (contains old_settings kv.1)
    then Raise (ConrepError (unknown_msg kv.1 kv.2))
    else Ok ()) () settings.

Definition filter_changed_settings (old_settings settings : settings_t)
  : except settings_t :=
  for_each (λ h kv,
    o ← getitem old_settings kv.1;
    if negb (py_eq kv.2 o) then Ok (setitem kv.1 kv.2 h) else Ok h)
    [] settings.

Definition diff_line (k v : pyval) : string := str k +:+ " => " +:+ str v.

Definition diff_settings (old_settings settings : settings_t)
  : except diff_t :=
  items ← sorted_items settings;
  ba ← for_each (λ (ba : list string * list string) kv,
          o ← getitem old_settings kv.1;
          Ok (ba.1 ++ [diff_line kv.1 o], ba.2 ++ [diff_line kv.1 kv.2]))
        ([], []) items;
  Ok {| before := String.concat newline (ba.1 ++ [EmptyString]);
        after := String.concat newline (ba.2 ++ [EmptyString]) |}.

Definition merge_dicts (xs ys : settings_t) : settings_t := update xs ys.

(** Lines 212-215: [settings_xml], when given, wins over [settings]. *)
Definition requested (p : params_t) : except settings_t :=
  if decide (settings_xml p ≠ EmptyString)
  then parse_dat_from_string (settings_xml p)
  else Ok (settings p).

(** The [try] of [run_module] up to and including the diff (lines
    212-221): the current state and the changed subset. *)
Definition run_plan (m : module_t) : M st (settings_t * settings_t) :=
  settings ← lift (requested (params m));
  old_settings ← read_settings (params m);
  _ ← lift (check_settings old_settings settings);
  settings ← lift (filter_changed_settings old_settings settings);
  _ ← (if _diff m
       then d ← lift (diff_settings old_settings settings);
            modify (set_diff d)
       else mret ());
  mret (old_settings, settings).

(** The rest of the [try] (lines 223-230): the write and the facts. *)
Definition run_apply (m : module_t) (old_settings settings : settings_t)
  : M st () :=
  let debug := bool_decide (3 ≤ _verbosity m) in
  _ ← (if decide (settings ≠ [])
       then t ← write_settings (params m) settings (check_mode m) debug;
            _ ← (if debug
                 then modify (set_debug ("generated conrep.dat: " +:+ str t))
                 else mret ());
            modify (set_changed true)
       else mret ());
  if facts (params m)
  then modify (set_facts (merge_dicts old_settings settings))
  else mret ().

(** The body of the [try] of [run_module]. *)
Definition run_body (m : module_t) : M st () :=
  os ← run_plan m;
  run_apply m os.1 os.2.

Definition initial : st :=
  {| calls := [];
     result := {| changed := false; ansible_facts_conrep := None;
                  diff := None; debug := None |} |}.

(** [run_module]: the tool runs it made, and how it ended. *)
Definition run_module (m : module_t) : list invocation * outcome :=
  match run_body m initial with
  | (s, Ok _) => (calls s, exit_json (result s))
  | (s, Raise (ConrepError msg)) => (calls s, fail_json msg (result s))
  | (s, Raise e) => (calls s, uncaught e)
  end.
End conrep.

(** The changed subset in the specification's words:
    [{ k: D[k] for k in D if D[k] != C[k] }]. *)
Definition changedSubset (C D : settings_t) : settings_t :=
  filter (λ kv, dict_lookup kv.1 C ≠ Some kv.2) D.

(** What a run reports of [changed] and [diff], if it reports at all. *)
Definition reported (o : outcome) : option (bool * option diff_t) :=
  match o with
  | exit_json r | fail_json _ r => Some (changed r, diff r)
  | uncaught _ => None
  end.

Definition with_check_mode (b : bool) (m : module_t) : module_t :=
  {| params := params m; _diff := _diff m; check_mode := b;
     _verbosity := _verbosity m |}.

(** The [name] attributes of the [Section] children of a root, in order. *)
Definition section_names (r : Element) : list (option string) :=
  (λ e, get e "name") <$> filter (λ e, tag e = "Section") (children r).

(** The tool run that dumps, and the one that loads the file [f]. *)
Definition save_call (p : params_t) : invocation :=
  {| command := [conrep p; "-x"; hwdef p]; mode := flag_s;
     scratch := EmptyString |}.
Definition load_call (p : params_t) (f : string) : invocation :=
  {| command := [conrep p; "-x"; hwdef p]; mode := flag_l; scratch := f |}.

(** The message of [call_conrep] for a run that ended as [r]. *)
Definition failed_msg (r : proc) : string :=
  "Conrep failed (rc=" +:+ pretty (returncode r) +:+ "): " +:+ out r
  +:+ " " +:+ err r.

(** The order [sorted] puts the items of a mapping with [str] keys in. *)
Definition key_le (a b : string * option string) : Prop :=
  String.leb a.1 b.1 = true.
End Conrep.

(** ** The structured adapter: [library/hprcu.py] *)
Module Hprcu.
Import Py.

(** [module.params['settings']]: feature name to target value. *)
Abbreviation settings_t := (list (string * pyval)) (only parsing).

Record params_t := {
  hprcu : string;
  facts : bool;
  settings : settings_t;
  settings_xml : string
}.

Record module_t := {
  params : params_t;
  _diff : bool;
  check_mode : bool;
  _verbosity : nat
}.

Record diff_t := { before : string; after : string }.

Record result_t := {
  changed : bool;
  ansible_facts_hprcu : option (odict pyval pyval);
  diff : option diff_t;
  debug : option string
}.

Record st := { calls : list invocation; result : result_t }.

Definition set_changed (b : bool) (s : st) : st :=
  {| calls := calls s;
     result := {| changed := b;
                  ansible_facts_hprcu := ansible_facts_hprcu (result s);
                  diff := diff (result s); debug := debug (result s) |} |}.
Definition set_facts (f : odict pyval pyval) (s : st) : st :=
  {| calls := calls s;
     result := {| changed := changed (result s);
                  ansible_facts_hprcu := Some f;
                  diff := diff (result s); debug := debug (result s) |} |}.
Definition set_diff (d : diff_t) (s : st) : st :=
  {| calls := calls s;
     result := {| changed := changed (result s);
                  ansible_facts_hprcu := ansible_facts_hprcu (result s);
                  diff := Some d; debug := debug (result s) |} |}.
Definition set_debug (t : string) (s : st) : st :=
  {| calls := calls s;
     result := {| changed := changed (result s);
                  ansible_facts_hprcu := ansible_facts_hprcu (result s);
                  diff := diff (result s); debug := Some t |} |}.

Inductive outcome :=
| exit_json (r : result_t)
| fail_json (msg : string) (r : result_t)
| uncaught (e : exn).

(** [seen.add(name)] on a set kept as a duplicate-free list. *)
Definition set_add (n : string) (seen : list string) : list string :=
  if decide (n ∈ seen) then seen else seen ++ [n].

(** [f.find('option[@option_id="sel"]/option_name')]: over the [option]
    children whose [option_id] is [sel], in order, their [option_name]
    children; the first one.  ([sel] without a double quote.) *)
Definition find_option_name (f : Element) (sel : string) : option Element :=
  head (o ← filter (λ o, tag o = "option" ∧ get o "option_id" = Some sel)
                   (children f);
        filter (λ c, tag c = "option_name") (children o)).

Section hprcu.
Context `{ElementTreeLib}.

(** A document is its root element; [None] is the Python [None]. *)
Definition doc2string (d : option Element) : except string :=
  match d with
  | Some r => ET_write r
  | None => Raise (AttributeError "write")
  end.

Definition et_tostring (e : Element) : except string := ET_tostring e.

(** Line 131: the ids of the options of [f] displayed as [v]. *)
Definition option_ids (f : Element) (v : pyval) : except (list pyval) :=
  for_each (λ oids o,
    if decide (tag o = "option")
    then n ← text_of (find o "option_name");
         Ok (if py_eq n v then oids ++ [get o "option_id"] else oids)
    else Ok oids) [] (children f).

(** One turn of the loop of [apply_settings] on the feature [f], with
    [changed] and [seen] in [cs]: the feature as the turn leaves it, and
    the new [changed] and [seen] unless the turn raised. *)
Definition apply_feature (h : settings_t) (cs : bool * list string)
    (f : Element) : Element * except (bool * list string) :=
  if decide (tag f ≠ "feature") then (f, Ok cs)
  else
    match text_of (find f "feature_name") with
    | Raise e => (f, Raise e)
    | Ok name =>
        match name ≫= (λ n, pair n <$> dict_lookup n h) with
        | None => (f, Ok cs)
        | Some (n, v) =>
            let seen := set_add n cs.2 in
            if decide (get f "feature_type" = Some "option") then
              match option_ids f v with
              | Raise e => (f, Raise e)
              | Ok [] =>
                  (f, x ← et_tostring f; Raise (NameError "HprcuErrror"))
              | Ok (oid :: _) =>
                  (set f "selected_option_id" oid,
                   Ok (cs.1 || negb (py_eq (get f "selected_option_id") oid),
                       seen))
              end
            else if decide (get f "feature_type" = Some "string") then
              match find f "feature_value" with
              | None => (f, Raise (AttributeError "text"))
              | Some fv =>
                  (Elem (tag f) (attrib f) (text f) (tail f)
                        (set_text_in "feature_value" v (children f)),
                   Ok (cs.1 || negb (py_eq (text fv) v), seen))
              end
            else (f, Raise (NameError "n"))
        end
    end.

(** The [for f in r] loop: the children as the loop leaves them. *)
Fixpoint apply_loop (h : settings_t) (cs : bool * list string)
    (fs : list Element) : list Element * except (bool * list string) :=
  match fs with
  | [] => ([], Ok cs)
  | f :: fs' =>
      match apply_feature h cs f with
      | (f', Ok cs') =>
          let '(fs'', r) := apply_loop h cs' fs' in (f' :: fs'', r)
      | (f', Raise e) => (f' :: fs', Raise e)
      end
  end.

Definition unknown_features_msg (h : settings_t) (seen : list string)
  : string :=
  "Some features are unknown to this hprcu: "
  +:+ String.concat ", " (filter (λ x, x ∉ seen) (keys h)).

(** [apply_settings(doc, h)] edits [doc] in place: the document as the call
    leaves it, and [changed] unless the call raised. *)
Definition apply_settings (doc : Element) (h : settings_t)
  : Element * except bool :=
  let '(fs, r) := apply_loop h (false, []) (children doc) in
  (Elem (tag doc) (attrib doc) (text doc) (tail doc) fs,
   cs ← r;
   if decide (length cs.2 ≠ length h)
   then Raise (HprcuError (unknown_features_msg h cs.2))
   else Ok cs.1).

Definition doc2dict (doc : Element) : except (odict pyval pyval) :=
  for_each (λ h f,
    if decide (tag f ≠ "feature") then Ok h
    else if decide (get f "feature_type" = Some "option")
    then Ok (setitem (get f "feature_id") (get f "selected_option_id") h)
    else if decide (get f "feature_type" = Some "string")
    then v ← text_of (find f "feature_value");
         Ok (setitem (get f "feature_id") v h)
    else Ok h) [] (children doc).

Definition doc2facts (doc : option Element) : except (odict pyval pyval) :=
  match doc with
  | None => Ok []
  | Some r =>
      for_each (λ h f,
        if decide (tag f ≠ "feature") then Ok h
        else
          k ← text_of (find f "feature_name");
          if decide (get f "feature_type" = Some "option")
          then v ← text_of (find_option_name f
                              (str (get f "selected_option_id")));
               Ok (setitem k v h)
          else if decide (get f "feature_type" = Some "string")
          then v ← text_of (find f "feature_value");
               Ok (setitem k v h)
          else Ok h) [] (children r)
  end.

Definition not_known_msg (k : pyval) : string :=
  "Feature " +:+ str k +:+ " not known by this hprcu".

(** The loop of [doc_yield_changes] over [y.items()]. *)
Fixpoint yield_scan (x y : odict pyval pyval) : except bool :=
  match y with
  | [] => Ok false
  | (k, v) :: y' =>
      if negb (contains x k) then Raise (HprcuError (not_known_msg k))
      else
        o ← getitem x k;
        if negb (py_eq o v) then Ok true else yield_scan x y'
  end.

Definition doc_yield_changes (old_doc doc : Element) : except bool :=
  x ← doc2dict old_doc;
  y ← doc2dict doc;
  yield_scan x y.

Definition mk_diff (old_doc doc : option Element) : except diff_t :=
  b ← doc2string old_doc;
  a ← doc2string doc;
  Ok {| before := b; after := a |}.

Context (hw : host).

Definition call_hprcu (p : params_t) (fl : flag) (file : string)
  : M st () := λ s,
  let r := match fl with flag_s => on_save hw | flag_l => on_load hw file end in
  ({| calls := calls s ++ [ {| command := [hprcu p; "-a"];
                               mode := fl; scratch := file |} ];
      result := result s |},
   if decide (returncode r ≠ 0%Z)
   then Raise (HprcuError ("hprcu failed (rc=" +:+ pretty (returncode r)
                 +:+ "): " +:+ out r +:+ " " +:+ err r))
   else Ok ()).

(** [ET.parse(f.name)] is [saved hw]. *)
Definition read_settings (p : params_t) : M st Element :=
  _ ← call_hprcu p flag_s EmptyString;
  lift (saved hw).

Definition write_settings (p : params_t) (doc : option Element)
    (check_mode : bool) : M st () :=
  f ← lift (doc2string doc);
  if negb check_mode then call_hprcu p flag_l f else mret ().

(** The [try] of [run_module] up to and including the diff (lines
    250-261): [old_doc], [doc] and [changed].  [copy.deepcopy(old_doc)] is
    [old_doc] itself: values are not shared, so the edits of
    [apply_settings] do not reach [old_doc]. *)
Definition run_plan (m : module_t)
  : M st (Element * (option Element * bool)) :=
  let p := params m in
  old_doc ← read_settings p;
  dc ← (if decide (settings p ≠ [])
        then let '(doc, r) := apply_settings old_doc (settings p) in
             changed ← lift r;
             mret (Some doc, changed)
        else mret (None, false));
  dc ← (if decide (settings_xml p ≠ EmptyString)
        then doc ← lift (ET_fromstring (settings_xml p));
             changed ← lift (doc_yield_changes old_doc doc);
             mret (Some doc, changed)
        else mret dc);
  _ ← (if _diff m
       then d ← lift (mk_diff (Some old_doc) dc.1);
            modify (set_diff d)
       else mret ());
  mret (old_doc, dc).

(** The rest of the [try] (lines 263-271): the write and the facts. *)
Definition run_apply (m : module_t) (old_doc : Element)
    (doc : option Element) (changed : bool) : M st () :=
  let debug := bool_decide (3 ≤ _verbosity m) in
  let p := params m in
  _ ← (if changed
       then _ ← write_settings p doc (check_mode m);
            _ ← (if debug
                 then t ← lift (match doc with
                                | Some _ => doc2string doc
                                | None => Ok EmptyString
                                end);
                      modify (set_debug ("new hprcu.xml: " +:+ t))
                 else mret ());
            modify (set_changed true)
       else mret ());
  if facts p
  then f ← lift (doc2facts (match doc with
                            | Some _ => doc
                            | None => Some old_doc
                            end));
       modify (set_facts f)
  else mret ().

(** The body of the [try] of [run_module]. *)
Definition run_body (m : module_t) : M st () :=
  odc ← run_plan m;
  run_apply m odc.1 odc.2.1 odc.2.2.

Definition initial : st :=
  {| calls := [];
     result := {| changed := false; ansible_facts_hprcu := None;
                  diff := None; debug := None |} |}.

Definition run_module (m : module_t) : list invocation * outcome :=
  match run_body m initial with
  | (s, Ok _) => (calls s, exit_json (result s))
  | (s, Raise (HprcuError msg)) => (calls s, fail_json msg (result s))
  | (s, Raise e) => (calls s, uncaught e)
  end.
End hprcu.

(** The name a child of the root answers to in [apply_settings]: the text of
    its [feature_name], when it is a [feature] and the text is a string. *)
Definition feature_name_of (f : Element) : option string :=
  if decide (tag f = "feature") then find f "feature_name" ≫= text else None.

(** The names that the [feature] children of a document answer to. *)
Definition feature_names (doc : Element) : list string :=
  omap feature_name_of (children doc).

Definition reported (o : outcome) : option (bool * option diff_t) :=
  match o with
  | exit_json r | fail_json _ r => Some (changed r, diff r)
  | uncaught _ => None
  end.

Definition with_check_mode (b : bool) (m : module_t) : module_t :=
  {| params := params m; _diff := _diff m; check_mode := b;
     _verbosity := _verbosity m |}.

(** The tool run that dumps. *)
Definition save_call (p : params_t) : invocation :=
  {| command := [hprcu p; "-a"]; mode := flag_s; scratch := EmptyString |}.

(** The message of [call_hprcu] for a run that ended as [r]. *)
Definition failed_msg (r : proc) : string :=
  "hprcu failed (rc=" +:+ pretty (returncode r) +:+ "): " +:+ out r
  +:+ " " +:+ err r.

(** The [feature_id]s that [doc2dict] files values under: those of the
    [feature] children of type [option] or [string], in order. *)
Definition feature_ids (doc : Element) : list (option string) :=
  (λ f, get f "feature_id")
  <$> filter (λ f, tag f = "feature"
                   ∧ (get f "feature_type" = Some "option"
                      ∨ get f "feature_type" = Some "string"))
             (children doc).

(** A [feature_value] child with its text taken out, any other child as it
    is: what is left of a child when the value is not looked at. *)
Definition blank_value (c : Element) : Element :=
  if decide (tag c = "feature_value")
  then Elem (tag c) (attrib c) None (tail c) (children c) else c.

(** [f'] is [f] up to the setting it holds: the attribute
    [selected_option_id] and the text of [feature_value] children. *)
Definition same_but_setting (f f' : Element) : Prop :=
  tag f' = tag f ∧ text f' = text f ∧ tail f' = tail f
  ∧ (∀ k, k ≠ "selected_option_id" → get f' k = get f k)
  ∧ blank_value <$> children f' = blank_value <$> children f.

(** Every [option] of every child of the root has an [option_id], as in
    every document that was parsed from text. *)
Definition options_have_ids (doc : Element) : Prop :=
  ∀ f o, f ∈ children doc → o ∈ children f → tag o = "option" →
         get o "option_id" ≠ None.

End Hprcu.

(** ** Concrete documents, mappings and hosts *)
Module Examples.
Import Py.

Definition leaf (t : string) (x : string) : Element :=
  Elem t [] (Some x) None [].
Definition node (t : string) (a : odict string pyval) (cs : list Element)
  : Element := Elem t a None None cs.

(** A plain serializer, good enough to tell documents apart. *)
Fixpoint show (e : Element) : string :=
  "<" +:+ tag e
  +:+ String.concat EmptyString
        ((λ kv : string * pyval, " " +:+ kv.1 +:+ "='" +:+ str kv.2 +:+ "'")
           <$> attrib e)
  +:+ ">" +:+ default EmptyString (text e)
  +:+ String.concat EmptyString (show <$> children e)
  +:+ "</" +:+ tag e +:+ ">" +:+ default EmptyString (tail e).

(** An XML library that serializes with [show] and parses the serialization
    of the documents listed in [known]. *)
Definition parse_known (known : list Element) (s : string) : except Element :=
  match filter (λ d, show d = s) known with
  | d :: _ => Ok d
  | [] => Raise ParseError
  end.
Definition lib (known : list Element) : ElementTreeLib :=
  {| ET_tostring := λ e, Ok (show e);
     ET_write := λ e, Ok (show e);
     ET_fromstring := parse_known known |}.

Definition option_ (id name : string) : Element :=
  node "option" [("option_id", Some id)] [leaf "option_name" name].
Definition option_feature (id name sel : string) (opts : list Element)
  : Element :=
  node "feature"
       [("feature_id", Some id); ("feature_type", Some "option");
        ("selected_option_id", Some sel)]
       (leaf "feature_name" name :: opts).
Definition string_feature (id name value : string) : Element :=
  node "feature" [("feature_id", Some id); ("feature_type", Some "string")]
       [leaf "feature_name" name; leaf "feature_value" value].
Definition typed_feature (ty id name : string) : Element :=
  node "feature" [("feature_id", Some id); ("feature_type", Some ty)]
       [leaf "feature_name" name].
Definition hprcu_doc (fs : list Element) : Element := node "hprcu" [] fs.

Definition hyperthreading (sel : string) : Element :=
  option_feature "110" "Hyperthreading" sel
    [option_ "1" "Enabled"; option_ "2" "Disabled"].

Definition ok : proc := {| returncode := 0; out := EmptyString; err := EmptyString |}.
Definition failed : proc := {| returncode := 1; out := "out"; err := "err" |}.

(** A host whose tool dumps [d] and accepts every load. *)
Definition healthy (d : Element) : host :=
  {| on_save := ok; saved := Ok d; on_load := λ _, ok |}.
(** A host whose tool dumps [d] and refuses every load. *)
Definition refusing (d : Element) : host :=
  {| on_save := ok; saved := Ok d; on_load := λ _, failed |}.

Definition section_ (name value : string) : Element :=
  Elem "Section" [("name", Some name)] (Some value) None [].
Definition conrep_doc (ss : list Element) : Element := node "Conrep" [] ss.

(** *** Flat adapter *)

(** The dump of the scenario: two sections, both [Enabled]. *)
Definition power_doc : Element :=
  conrep_doc [section_ "PowerMonitoring" "Enabled"; section_ "Turbo" "Enabled"].
Definition power_C : list (option string * option string) :=
  [(Some "PowerMonitoring", Some "Enabled"); (Some "Turbo", Some "Enabled")].
Definition power_D : list (option string * option string) :=
  [(Some "PowerMonitoring", Some "Disabled")].
(** A desired mapping with a key in the middle that the dump lacks. *)
Definition stray_D : list (option string * option string) :=
  [(Some "Turbo", Some "Disabled"); (Some "Boost", Some "Off");
   (Some "PowerMonitoring", Some "Disabled")].

Definition conrep_module (D : list (option string * option string))
    (diff chk : bool) : Conrep.module_t :=
  {| Conrep.params :=
       {| Conrep.conrep := "conrep"; Conrep.facts := true;
          Conrep.hwdef := "/opt/hp/hp-scripting-tools/etc/conrep.xml";
          Conrep.settings := D; Conrep.settings_xml := EmptyString |};
     Conrep._diff := diff; Conrep.check_mode := chk;
     Conrep._verbosity := 0 |}.

Definition conrep_save : invocation :=
  {| command := ["conrep"; "-x"; "/opt/hp/hp-scripting-tools/etc/conrep.xml"];
     mode := flag_s; scratch := EmptyString |}.

(** *** Structured adapter *)

(** The scenario: [Hyperthreading] with option 1 selected. *)
Definition ht_doc : Element := hprcu_doc [hyperthreading "1"].
(** A dump with a feature of a type other than [option] and [string]. *)
Definition numeric_doc : Element :=
  hprcu_doc [typed_feature "numeric" "7" "Speed"].
(** A dump with one string feature, and a candidate document that changes it
    and then brings a feature id the dump does not have. *)
Definition old_A : Element := hprcu_doc [string_feature "1" "A" "a"].
Definition cand_AB : Element :=
  hprcu_doc [string_feature "1" "A" "b"; string_feature "2" "B" "c"].

Definition hprcu_module (D : list (string * option string)) (xml : string)
    (diff chk : bool) : Hprcu.module_t :=
  {| Hprcu.params :=
       {| Hprcu.hprcu := "hprcu"; Hprcu.facts := true;
          Hprcu.settings := D; Hprcu.settings_xml := xml |};
     Hprcu._diff := diff; Hprcu.check_mode := chk;
     Hprcu._verbosity := 0 |}.

Definition hprcu_save : invocation :=
  {| command := ["hprcu"; "-a"]; mode := flag_s; scratch := EmptyString |}.
Definition hprcu_load (file : string) : invocation :=
  {| command := ["hprcu"; "-a"]; mode := flag_l; scratch := file |}.

(** A host whose tool fails to dump. *)
Definition broken : host :=
  {| on_save := failed; saved := Raise ParseError; on_load := λ _, ok |}.

(** A dump where [Turbo] comes twice and a foreign element sits between. *)
Definition twice_doc : Element :=
  conrep_doc [section_ "Turbo" "Enabled"; leaf "Comment" "x";
              section_ "PowerMonitoring" "Enabled";
              section_ "Turbo" "Disabled"].


(** The XML library of the examples: it can parse [cand_AB]. *)
#[export] Instance example_lib : ElementTreeLib := lib [cand_AB].

End Examples.

(** ** Facts about dictionaries and loops *)
Module PyFacts.
Import Py.

Lemma bind_Ok {A B} (a : A) (f : A → except B) : Ok a ≫= f = f a.
Proof. done. Qed.

Lemma bind_Raise {A B} (e : exn) (f : A → except B) : Raise e ≫= f = Raise e.
Proof. done. Qed.

Lemma for_each_cons {A S} (body : S → A → except S) s x l :
  for_each body s (x :: l) = (body s x ≫= λ s', for_each body s' l).
Proof. done. Qed.

Section odict.
Context {K V : Type} `{EqDecision K}.
Implicit Types (d : odict K V) (k : K) (v : V).

Lemma keys_cons k v d : keys ((k, v) :: d) = k :: keys d.
Proof. done. Qed.

Lemma keys_app d1 d2 : keys (d1 ++ d2) = keys d1 ++ keys d2.
Proof. unfold keys. apply fmap_app. Qed.

Lemma wf_cons k v d : wf ((k, v) :: d) ↔ (k ∉ keys d) ∧ wf d.
Proof. unfold wf. rewrite keys_cons. apply NoDup_cons. Qed.

Lemma getitem_Some k v d : dict_lookup k d = Some v → getitem d k = Ok v.
Proof. unfold getitem. by intros ->. Qed.

Lemma lookup_setitem_eq k v d : dict_lookup k (setitem k v d) = Some v.
Proof.
  induction d as [|[k' v'] d IH]; simpl; repeat case_decide; simpl;
    repeat case_decide; congruence.
Qed.

Lemma lookup_setitem_ne k k' v d :
  k ≠ k' → dict_lookup k' (setitem k v d) = dict_lookup k' d.
Proof.
  intros Hne. induction d as [|[k0 v0] d IH]; simpl; repeat case_decide;
    simpl; repeat case_decide; congruence.
Qed.

Lemma lookup_None k d : dict_lookup k d = None ↔ k ∉ keys d.
Proof.
  unfold keys. induction d as [|[k' v'] d IH]; simpl.
  - split; [intros _; apply not_elem_of_nil | done].
  - rewrite not_elem_of_cons. case_decide as Hk.
    + split; [done|]. by intros [? _].
    + rewrite IH. split; [by intros; split|by intros [_ ?]].
Qed.

Lemma contains_keys d k : contains d k = true ↔ k ∈ keys d.
Proof.
  unfold contains. rewrite bool_decide_eq_true.
  destruct (dict_lookup k d) eqn:E.
  - split; [intros _|by eauto].
    destruct (decide (k ∈ keys d)) as [|Hn]; [done|].
    apply lookup_None in Hn. congruence.
  - split; [by intros [? ?]|]. intros Hin.
    apply lookup_None in E. done.
Qed.

Lemma contains_false d k : contains d k = false ↔ k ∉ keys d.
Proof.
  rewrite <-contains_keys. destruct (contains d k); split; try done.
Qed.

Lemma setitem_fresh k v d : k ∉ keys d → setitem k v d = d ++ [(k, v)].
Proof.
  unfold keys. induction d as [|[k' v'] d IH]; simpl; [done|].
  rewrite not_elem_of_cons. intros [? ?]. case_decide; [congruence|].
  by rewrite IH.
Qed.

Lemma setitem_id k v d : dict_lookup k d = Some v → setitem k v d = d.
Proof.
  induction d as [|[k' v'] d IH]; simpl; [done|].
  case_decide; intros; simplify_eq; [done|]. by rewrite IH.
Qed.

Lemma keys_setitem_in k v d : k ∈ keys d → keys (setitem k v d) = keys d.
Proof.
  unfold keys. induction d as [|[k' v'] d IH]; simpl.
  - by intros ?%elem_of_nil.
  - intros Hin. case_decide; simpl; [congruence|].
    apply elem_of_cons in Hin as [|Hin]; [congruence|]. f_equal. by apply IH.
Qed.

(** [d.update(ys)] read key by key, for [ys] with distinct keys. *)
Lemma lookup_update d ys k :
  wf ys →
  dict_lookup k (update d ys)
  = match dict_lookup k ys with Some v => Some v | None => dict_lookup k d end.
Proof.
  unfold wf, keys, update. revert d.
  induction ys as [|[k0 v0] ys IH]; intros d Hnd; simpl; [done|].
  apply NoDup_cons in Hnd as [Hk0 Hnd]. rewrite IH by done.
  destruct (decide (k0 = k)) as [->|Hk].
  - rewrite (proj2 (lookup_None k ys) Hk0). apply lookup_setitem_eq.
  - by rewrite lookup_setitem_ne.
Qed.

Lemma keys_update d ys :
  (∀ k, k ∈ keys ys → k ∈ keys d) → keys (update d ys) = keys d.
Proof.
  unfold update. revert d.
  induction ys as [|[k0 v0] ys IH]; intros d Hsub; simpl; [done|].
  rewrite IH.
  - apply keys_setitem_in, Hsub. unfold keys; simpl. apply elem_of_cons; auto.
  - intros k Hk. rewrite keys_setitem_in.
    + apply Hsub. unfold keys; simpl. apply elem_of_cons; auto.
    + apply Hsub. unfold keys; simpl. apply elem_of_cons; auto.
Qed.
End odict.

End PyFacts.

(** ** The flat adapter: theorems *)
Module ConrepFacts.
Import Py PyFacts Conrep.

Section conrep.
Context `{ElementTreeLib}.
Implicit Types C D h : settings_t.

Lemma filter_loop C D h :
  wf D →
  (∀ k, k ∈ keys D → k ∉ keys h) →
  (∀ k, k ∈ keys D → contains C k = true) →
  for_each (λ h kv,
    o ← getitem C kv.1;
    if negb (py_eq kv.2 o) then Ok (setitem kv.1 kv.2 h) else Ok h) h D
  = Ok (h ++ changedSubset C D).
Proof.
  unfold changedSubset. revert h.
  induction D as [|[k v] D IH]; intros h Hwf Hfresh Hin.
  - cbn. by rewrite app_nil_r.
  - apply wf_cons in Hwf as [Hk Hwf].
    assert (k ∉ keys h) as Hkh by (apply Hfresh; rewrite keys_cons; left).
    assert (k ∈ keys C) as Hc
      by (apply contains_keys, Hin; rewrite keys_cons; left).
    destruct (dict_lookup k C) as [o|] eqn:Ho;
      [|by apply lookup_None in Ho].
    rewrite for_each_cons, filter_cons. cbn [fst snd].
    rewrite (getitem_Some _ _ _ Ho), bind_Ok, Ho. unfold py_eq.
    destruct (decide (v = o)) as [->|Hvo].
    + rewrite bool_decide_eq_true_2 by done. cbn [negb].
      rewrite bind_Ok, decide_False by (intros Hne; by apply Hne).
      apply IH; [done| |].
      * intros k' Hk'. apply Hfresh. rewrite keys_cons. by right.
      * intros k' Hk'. apply Hin. rewrite keys_cons. by right.
    + rewrite bool_decide_eq_false_2 by done. cbn [negb].
      rewrite bind_Ok, decide_True by congruence.
      rewrite setitem_fresh by done.
      rewrite IH; [by rewrite <-app_assoc|done| |].
      * intros k' Hk'. rewrite keys_app, elem_of_app.
        intros [Hh|Hh%list_elem_of_singleton].
        -- revert Hh. apply Hfresh. rewrite keys_cons. by right.
        -- cbn in Hh. by subst.
      * intros k' Hk'. apply Hin. rewrite keys_cons. by right.
Qed.

Lemma update_changedSubset C D A :
  wf D →
  (∀ k, k ∈ keys D → dict_lookup k A = dict_lookup k C) →
  update A (changedSubset C D) = update A D.
Proof.
  unfold changedSubset, update. revert A.
  induction D as [|[k v] D IH]; intros A Hwf Hagree; [done|].
  apply wf_cons in Hwf as [Hk Hwf].
  rewrite filter_cons. cbn [fst snd fold_left].
  destruct (decide (dict_lookup k C ≠ Some v)) as [Hne|Heq].
  - cbn [fst snd fold_left]. apply IH; [done|]. intros k' Hk'.
    rewrite lookup_setitem_ne by (intros ->; done).
    apply Hagree. rewrite keys_cons. by right.
  - apply dec_stable in Heq.
    rewrite (setitem_id k v A).
    + apply IH; [done|]. intros k' Hk'. apply Hagree.
      rewrite keys_cons. by right.
    + rewrite Hagree; [done|]. rewrite keys_cons. left.
Qed.

Lemma filter_changed_settings_known C D :
  wf D →
  (∀ k, k ∈ keys D → contains C k = true) →
  filter_changed_settings C D = Ok (changedSubset C D).
Proof.
  intros Hwf Hsub. unfold filter_changed_settings.
  rewrite filter_loop; try done. intros k _. apply not_elem_of_nil.
Qed.

Lemma check_settings_first_unknown C D :
  (∃ k, k ∈ keys D ∧ contains C k = false) →
  ∃ D1 k v D2,
    D = D1 ++ (k, v) :: D2
    ∧ contains C k = false
    ∧ (∀ k', k' ∈ keys D1 → contains C k' = true)
    ∧ check_settings C D = Raise (ConrepError (unknown_msg k v)).
Proof.
  unfold check_settings.
  induction D as [|[k v] D IH]; intros (k0 & Hk0 & Hc0).
  - by apply elem_of_nil in Hk0.
  - destruct (contains C k) eqn:Hc.
    + rewrite keys_cons in Hk0. apply elem_of_cons in Hk0 as [->|Hk0];
        [congruence|].
      destruct IH as (D1 & k1 & v1 & D2 & -> & Hc1 & Hpre & Hchk);
        [by eauto|].
      exists ((k, v) :: D1), k1, v1, D2. repeat split; [done| |].
      * intros k'. rewrite keys_cons. intros [->|?]%elem_of_cons; auto.
      * rewrite <-Hchk. cbn [app]. rewrite for_each_cons.
        cbn [fst snd]. by rewrite Hc.
    + exists [], k, v, D. repeat split; [done| |].
      * by intros k' ?%elem_of_nil.
      * rewrite for_each_cons. cbn [fst snd]. by rewrite Hc.
Qed.

Context (hw : host).

(** C8.  When the tool's dump was read as the mapping [C] and the desired
    mapping [D] has a key that [C] lacks, [check_settings] raises the
    [ConrepError] whose message, written out below, names the first such
    key of [D] (with its value) and ends in the hint that a special
    hardware definition file may be needed, and
    [run_module] ends in [fail_json] with that message and the untouched
    initial result, [changed] being false, after the one dump run. *)
Theorem check_settings_unknown_key (m : module_t) r C D :
  returncode (on_save hw) = 0%Z →
  saved hw = Ok r →
  parse_dat r = Ok C →
  requested (params m) = Ok D →
  (∃ k, k ∈ keys D ∧ contains C k = false) →
  ∃ D1 k v D2,
    D = D1 ++ (k, v) :: D2
    ∧ contains C k = false
    ∧ (∀ k', k' ∈ keys D1 → contains C k' = true)
    ∧ check_settings C D
      = Raise (ConrepError
                 ("Setting '" +:+ str k +:+ "' (value: " +:+ str v
                  +:+ ") isn't known by conrep - perhaps you need a "
                  +:+ "special hardware definition file?"))
    ∧ run_module hw m
      = ([ {| command := [conrep (params m); "-x"; hwdef (params m)];
              mode := flag_s; scratch := EmptyString |} ],
         fail_json
           ("Setting '" +:+ str k +:+ "' (value: " +:+ str v
            +:+ ") isn't known by conrep - perhaps you need a "
            +:+ "special hardware definition file?")
           {| changed := false; ansible_facts_conrep := None;
              diff := None; debug := None |}).
Proof.
  intros Hrc Hsaved Hparse Hreq Hex.
  destruct (check_settings_first_unknown C D Hex)
    as (D1 & k & v & D2 & HD & Hc & Hpre & Hchk).
  exists D1, k, v, D2. repeat split; try done.
  unfold run_module, run_body, run_plan, read_settings, call_conrep.
  unfold mbind, M_bind, bind, lift.
  rewrite Hreq, Hrc, Hsaved. cbn [mbind except_bind]. rewrite Hparse.
  case_decide as Hd; [by destruct Hd|]. by rewrite Hchk.
Qed.


Lemma check_settings_known C D :
  (∀ k, k ∈ keys D → contains C k = true) → check_settings C D = Ok ().
Proof.
  unfold check_settings. induction D as [|[k v] D IH]; intros Hin; [done|].
  rewrite for_each_cons. cbn [fst snd].
  rewrite Hin by (rewrite keys_cons; left). cbn [negb]. rewrite bind_Ok.
  apply IH. intros k' Hk'. apply Hin. rewrite keys_cons. by right.
Qed.

(** X9.  The facts of a run that goes through (no diff asked for, check mode or
    a load that the tool accepts): the current state merged with the changed
    subset; and [changed] tells whether that subset has an entry. *)
Lemma run_module_facts (m : module_t) r C D :
  returncode (on_save hw) = 0%Z →
  saved hw = Ok r →
  parse_dat r = Ok C →
  requested (params m) = Ok D →
  wf D →
  (∀ k, k ∈ keys D → contains C k = true) →
  _diff m = false →
  facts (params m) = true →
  check_mode m = true
  ∨ returncode (on_load hw (render (changedSubset C D))) = 0%Z →
  ∃ tr res,
    run_module hw m = (tr, exit_json res)
    ∧ ansible_facts_conrep res = Some (merge_dicts C (changedSubset C D))
    ∧ changed res = bool_decide (changedSubset C D ≠ []).
Proof.
  intros Hrc Hsaved Hparse Hreq Hwf Hin Hdiff Hfacts Hload.
  pose proof (filter_changed_settings_known C D Hwf Hin) as Hfilter.
  unfold run_module, run_body, run_plan, run_apply.
  unfold read_settings, write_settings, call_conrep.
  unfold mbind, M_bind, bind, lift, mret, M_ret, ret, modify.
  rewrite Hreq, Hsaved, Hdiff, Hfacts.
  destruct (decide (returncode (on_save hw) ≠ 0%Z)) as [Hn|_];
    [by destruct Hn|].
  cbn [mbind except_bind]. rewrite Hparse, (check_settings_known _ _ Hin).
  rewrite Hfilter. cbn [fst snd].
  destruct (decide (changedSubset C D ≠ [])) as [Hne|He].
  - rewrite (bool_decide_eq_true_2 (changedSubset C D ≠ [])) by done.
    destruct (check_mode m); cbn [negb].
    + destruct (bool_decide (3 ≤ _verbosity m)); by eexists _, _.
    + destruct Hload as [|Hl]; [done|].
      destruct (decide (returncode (on_load hw (render (changedSubset C D)))
                        ≠ 0%Z)) as [Hn|_]; [by destruct Hn|].
      destruct (bool_decide (3 ≤ _verbosity m)); by eexists _, _.
  - rewrite (bool_decide_eq_false_2 (changedSubset C D ≠ [])) by done.
    by eexists _, _.
Qed.

(** A run on a valid desired mapping with facts wanted: whenever it ends in
    [exit_json], the facts it reports are the current state merged with the
    changed subset; and it does end so when the diff, if asked for, can be
    made and the load, if made, is accepted. *)
Lemma run_module_reports_merge (m : module_t) r C D :
  returncode (on_save hw) = 0%Z →
  saved hw = Ok r →
  parse_dat r = Ok C →
  requested (params m) = Ok D →
  wf D →
  (∀ k, k ∈ keys D → contains C k = true) →
  facts (params m) = true →
  (∀ tr res, run_module hw m = (tr, exit_json res) →
     ansible_facts_conrep res = Some (merge_dicts C (changedSubset C D)))
  ∧ ((_diff m = true → ∃ d, diff_settings C (changedSubset C D) = Ok d) →
     check_mode m = true
     ∨ returncode (on_load hw (render (changedSubset C D))) = 0%Z →
     ∃ tr res, run_module hw m = (tr, exit_json res)).
Proof.
  intros Hrc Hsaved Hparse Hreq Hwf Hin Hfacts.
  pose proof (filter_changed_settings_known C D Hwf Hin) as Hfilter.
  unfold run_module, run_body, run_plan, run_apply.
  unfold read_settings, write_settings, call_conrep.
  unfold mbind, M_bind, bind, lift, mret, M_ret, ret, modify.
  rewrite Hreq, Hsaved, Hfacts.
  destruct (decide (returncode (on_save hw) ≠ 0%Z)) as [Hn|_];
    [by destruct Hn|].
  cbn [mbind except_bind]. rewrite Hparse, (check_settings_known _ _ Hin).
  rewrite Hfilter. cbn [fst snd].
  assert (∀ s0 : st,
    let out :=
      (let (s, e0) :=
         let (s', e0) :=
           (if decide (changedSubset C D ≠ [])
            then λ s : st,
              let (s'0, e1) :=
                let (s'0, e1) :=
                  (if negb (check_mode m)
                   then λ s1 : st,
                     ({| calls := calls s1
                           ++ [ {| command := [conrep (params m); "-x";
                                               hwdef (params m)];
                                   mode := flag_l;
                                   scratch := render (changedSubset C D) |} ];
                         result := result s1 |},
                      if decide (returncode
                                   (on_load hw (render (changedSubset C D)))
                                 ≠ 0%Z)
                      then Raise (ConrepError
                             ("Conrep failed (rc="
                              +:+ pretty (returncode
                                    (on_load hw
                                       (render (changedSubset C D))))
                              +:+ "): "
                              +:+ out (on_load hw
                                         (render (changedSubset C D)))
                              +:+ " "
                              +:+ err (on_load hw
                                         (render (changedSubset C D)))))
                      else Ok ())
                   else λ s1 : st, (s1, Ok ())) s in
                match e1 with
                | Ok _ =>
                    (s'0, Ok (if bool_decide (3 ≤ _verbosity m)
                              then Some (render (changedSubset C D))
                              else None))
                | Raise e => (s'0, Raise e)
                end in
              match e1 with
              | Ok a =>
                  let (s'1, e2) :=
                    (if bool_decide (3 ≤ _verbosity m)
                     then λ s1 : st,
                       (set_debug ("generated conrep.dat: " +:+ str a) s1,
                        Ok ())
                     else λ s1 : st, (s1, Ok ())) s'0 in
                  match e2 with
                  | Ok _ => (set_changed true s'1, Ok ())
                  | Raise e => (s'1, Raise e)
                  end
              | Raise e => (s'0, Raise e)
              end
            else λ s : st, (s, Ok ())) s0 in
         match e0 with
         | Ok _ =>
             (set_facts (merge_dicts C (changedSubset C D)) s', Ok ())
         | Raise e => (s', Raise e)
         end in
       match e0 with
       | Ok _ => (calls s, exit_json (result s))
       | Raise (ConrepError msg) => (calls s, fail_json msg (result s))
       | Raise e => (calls s, uncaught e)
       end) in
    (∀ tr res, out = (tr, exit_json res) →
       ansible_facts_conrep res = Some (merge_dicts C (changedSubset C D)))
    ∧ (check_mode m = true
       ∨ returncode (on_load hw (render (changedSubset C D))) = 0%Z →
       ∃ tr res, out = (tr, exit_json res))) as Htail.
  { intros s0. cbn zeta.
    destruct (decide (changedSubset C D ≠ [])).
    - destruct (check_mode m); cbn [negb].
      + destruct (bool_decide (3 ≤ _verbosity m));
          (split; [intros tr res Heq; by simplify_eq|by eexists _, _]).
      + destruct (decide (returncode
                            (on_load hw (render (changedSubset C D)))
                          ≠ 0%Z)).
        * split; [intros tr res Heq; by simplify_eq|].
          intros [?|?]; done.
        * destruct (bool_decide (3 ≤ _verbosity m));
            (split; [intros tr res Heq; by simplify_eq|by eexists _, _]).
    - split; [intros tr res Heq; by simplify_eq|by eexists _, _]. }
  destruct (_diff m).
  - destruct (diff_settings C (changedSubset C D)) as [d|e].
    + destruct (Htail (set_diff d
                 {| calls := calls initial
                      ++ [ {| command := [conrep (params m); "-x";
                                          hwdef (params m)];
                              mode := flag_s; scratch := EmptyString |} ];
                    result := result initial |})) as [Ha Hb].
      split; [exact Ha|]. intros _. exact Hb.
    + split; [intros tr res Heq; destruct e; by simplify_eq|].
      intros Hd. destruct (Hd eq_refl) as [d Hd']. done.
  - destruct (Htail
                 {| calls := calls initial
                      ++ [ {| command := [conrep (params m); "-x";
                                          hwdef (params m)];
                              mode := flag_s; scratch := EmptyString |} ];
                    result := result initial |}) as [Ha Hb].
    split; [exact Ha|]. intros _. exact Hb.
Qed.

(** C1.  For a desired mapping [D] whose keys all occur in the current
    state [C], [filter_changed_settings C D] returns exactly the
    comprehension [{ k: D[k] for k in D if D[k] != C[k] }], in the order of
    [D]; merging that subset into [C] gives [C] updated with [D]: the same
    keys in the same order, every key of [D] carrying [D]'s value, every
    other key [C]'s; and that merge is what [run_module] reports as facts
    afterwards: every run that read the dump as [C], was asked for [D] and
    for facts, and ends in [exit_json], carries it in
    [ansible_facts_conrep], and the run does end so whenever the diff, if
    asked for, can be made and the load, if made, is accepted. *)
Theorem filter_changed_settings_spec C D :
  wf D →
  (∀ k, k ∈ keys D → contains C k = true) →
  filter_changed_settings C D = Ok (changedSubset C D)
  ∧ merge_dicts C (changedSubset C D) = merge_dicts C D
  ∧ keys (merge_dicts C D) = keys C
  ∧ (∀ k, dict_lookup k (merge_dicts C D)
          = match dict_lookup k D with
            | Some v => Some v
            | None => dict_lookup k C
            end)
  ∧ ∀ (m : module_t) r,
      returncode (on_save hw) = 0%Z →
      saved hw = Ok r →
      parse_dat r = Ok C →
      requested (params m) = Ok D →
      facts (params m) = true →
      (∀ tr res, run_module hw m = (tr, exit_json res) →
         ansible_facts_conrep res
         = Some (merge_dicts C (changedSubset C D)))
      ∧ ((_diff m = true →
          ∃ d, diff_settings C (changedSubset C D) = Ok d) →
         check_mode m = true
         ∨ returncode (on_load hw (render (changedSubset C D))) = 0%Z →
         ∃ tr res, run_module hw m = (tr, exit_json res)).
Proof.
  intros Hwf Hsub. repeat split.
  - by apply filter_changed_settings_known.
  - by apply update_changedSubset.
  - apply keys_update. intros k Hk. by apply contains_keys, Hsub.
  - intros k. by apply lookup_update.
  - by eapply run_module_reports_merge.
  - by eapply run_module_reports_merge.
Qed.

Lemma conrep_run_plan_check_mode b (m : module_t) :
  run_plan hw (with_check_mode b m) = run_plan hw m.
Proof. done. Qed.

Lemma conrep_run_body_eq (m : module_t) s :
  run_body hw m s
  = match run_plan hw m s with
    | (s', Ok os) => run_apply hw m os.1 os.2 s'
    | (s', Raise e) => (s', Raise e)
    end.
Proof. done. Qed.

(** Reading and planning run the tool with [-s] only. *)
Lemma conrep_run_plan_calls (m : module_t) s :
  existsb is_load (calls (run_plan hw m s).1) = existsb is_load (calls s).
Proof.
  unfold run_plan, read_settings, call_conrep.
  unfold mbind, M_bind, bind, lift, mret, M_ret, ret, modify.
  destruct (requested (params m)) as [D|]; [|done].
  assert (∀ i, existsb is_load (calls s ++ [ {| command := i; mode := flag_s;
                 scratch := EmptyString |} ]) = existsb is_load (calls s))
    as Hs by (intros; rewrite existsb_app; cbn; apply orb_false_r).
  destruct (decide (returncode (on_save hw) ≠ 0%Z)); [apply Hs|].
  destruct (saved hw) as [r|]; cbn [mbind except_bind]; [|apply Hs].
  destruct (parse_dat r) as [C|]; [|apply Hs].
  destruct (check_settings C D); [|apply Hs].
  destruct (filter_changed_settings C D) as [D'|]; [|apply Hs].
  destruct (_diff m); [|apply Hs].
  destruct (diff_settings C D'); apply Hs.
Qed.

(** A check-mode run never runs the tool with [-l]; and it ends as the
    real run does whenever every [-l] run of the real run exits with 0. *)
Lemma conrep_check_mode_run (m : module_t) :
  existsb is_load (run_module hw (with_check_mode true m)).1 = false
  ∧ ((∀ i, i ∈ (run_module hw (with_check_mode false m)).1 →
           is_load i = true →
           returncode (on_load hw (scratch i)) = 0%Z) →
     (run_module hw (with_check_mode true m)).2
     = (run_module hw (with_check_mode false m)).2).
Proof.
  unfold run_module. rewrite !conrep_run_body_eq, !conrep_run_plan_check_mode.
  pose proof (conrep_run_plan_calls m initial) as Hcalls.
  destruct (run_plan hw m initial) as [s1 [[old ch]|e]]; cbn in Hcalls.
  2:{ split; [by destruct e|done]. }
  unfold run_apply, write_settings, call_conrep.
  unfold mbind, M_bind, bind, lift, mret, M_ret, ret, modify.
  cbn [fst snd with_check_mode check_mode params _verbosity negb].
  destruct (decide (ch ≠ [])) as [Hne|Hemp].
  2:{ split; [by destruct (facts (params m))|done]. }
  split.
  { by destruct (bool_decide (3 ≤ _verbosity m)), (facts (params m)). }
  intros Hok.
  destruct (decide (returncode (on_load hw (render ch)) ≠ 0%Z)) as [Hrc|_].
  { destruct Hrc. cbn in Hok.
    apply (Hok {| command := [conrep (params m); "-x"; hwdef (params m)];
                  mode := flag_l; scratch := render ch |}); [|done].
    apply elem_of_app. right. apply list_elem_of_singleton. done. }
  by destruct (bool_decide (3 ≤ _verbosity m)), (facts (params m)).
Qed.
End conrep.
End ConrepFacts.

(** ** The structured adapter: theorems *)
Module HprcuFacts.
Import Py PyFacts Hprcu.

(** *** Elements *)

Lemma setitem_setitem {K V} `{EqDecision K} (k : K) (v : V) (d : odict K V) :
  setitem k v (setitem k v d) = setitem k v d.
Proof.
  induction d as [|[k' v'] d IH]; cbn; repeat (case_decide; cbn);
    congruence.
Qed.

Lemma get_set_eq f k v : get (set f k v) k = v.
Proof. unfold get, set. cbn. by rewrite lookup_setitem_eq. Qed.

Lemma get_set_ne f k k' v : k ≠ k' → get (set f k v) k' = get f k'.
Proof. intros ?. unfold get, set. cbn. by rewrite lookup_setitem_ne. Qed.

Lemma set_set f k v : set (set f k v) k v = set f k v.
Proof. unfold set. cbn. by rewrite setitem_setitem. Qed.

Lemma find_in_set_text_ne t t' v cs :
  t' ≠ t → find_in t (set_text_in t' v cs) = find_in t cs.
Proof.
  intros Hne. induction cs as [|c cs IH]; cbn; [done|].
  destruct (decide (tag c = t')) as [Ht'|Ht']; cbn.
  - rewrite !decide_False by congruence. done.
  - by rewrite IH.
Qed.

Lemma find_in_set_text_eq t v cs c :
  find_in t cs = Some c →
  find_in t (set_text_in t v cs)
  = Some (Elem (tag c) (attrib c) v (tail c) (children c)).
Proof.
  induction cs as [|c' cs IH]; cbn; [done|].
  destruct (decide (tag c' = t)) as [Ht|Ht]; cbn.
  - intros [= ->]. by rewrite decide_True.
  - rewrite decide_False by done. apply IH.
Qed.

Lemma set_text_in_idem t v cs :
  set_text_in t v (set_text_in t v cs) = set_text_in t v cs.
Proof.
  induction cs as [|c cs IH]; cbn; [done|].
  destruct (decide (tag c = t)) as [Ht|Ht]; cbn.
  - by rewrite decide_True.
  - rewrite decide_False by done. by rewrite IH.
Qed.

Section hprcu.
Context `{ElementTreeLib}.
Implicit Types (h : list (string * option string)) (f : Element).

(** *** [apply_settings] twice *)

Lemma apply_feature_again h c seen f f' cs' :
  apply_feature h (c, seen) f = (f', Ok cs') →
  ∀ c0, apply_feature h (c0, seen) f' = (f', Ok (c0, cs'.2)).
Proof.
  unfold apply_feature. intros Hrun c0.
  destruct (decide (tag f ≠ "feature")) as [Ht|Ht].
  { simplify_eq. by rewrite decide_True. }
  destruct (text_of (find f "feature_name")) as [name|] eqn:Hname;
    [|done].
  destruct (name ≫= λ n, pair n <$> dict_lookup n h) as [[n v]|] eqn:Hin.
  2:{ simplify_eq. rewrite decide_False, Hname, Hin by done. done. }
  cbn [fst snd] in *.
  destruct (decide (get f "feature_type" = Some "option")) as [Hty|Hty].
  - destruct (option_ids f v) as [[|oid oids]|] eqn:Hoids; try done.
    { by destruct (et_tostring f). }
    simplify_eq. cbn [snd].
    assert (tag (set f "selected_option_id" oid) = tag f) as -> by done.
    rewrite decide_False by done.
    assert (find (set f "selected_option_id" oid) "feature_name"
            = find f "feature_name") as -> by done.
    rewrite Hname, Hin. cbn [fst snd].
    rewrite get_set_ne by done. rewrite decide_True by done.
    assert (option_ids (set f "selected_option_id" oid) v = option_ids f v)
      as -> by done.
    rewrite Hoids, get_set_eq, set_set. unfold py_eq.
    rewrite bool_decide_eq_true_2 by done. cbn [negb].
    by rewrite orb_false_r.
  - destruct (decide (get f "feature_type" = Some "string")) as [Hs|Hs];
      [|done].
    destruct (find f "feature_value") as [fv|] eqn:Hfv; [|done].
    simplify_eq. cbn [snd].
    set (f' := Elem _ _ _ _ _).
    assert (tag f' = tag f) as -> by done.
    rewrite decide_False by done.
    assert (find f' "feature_name" = find f "feature_name") as ->.
    { unfold find, f'. cbn. by apply find_in_set_text_ne. }
    rewrite Hname, Hin. cbn [fst snd].
    assert (get f' "feature_type" = get f "feature_type") as -> by done.
    rewrite decide_False, decide_True by done.
    assert (find f' "feature_value"
            = Some (Elem (tag fv) (attrib fv) v (tail fv) (children fv)))
      as ->.
    { unfold find, f'. cbn. by apply find_in_set_text_eq. }
    unfold py_eq. cbn [text].
    rewrite bool_decide_eq_true_2 by done. cbn [negb].
    rewrite orb_false_r. unfold f'. cbn. by rewrite set_text_in_idem.
Qed.

Lemma apply_loop_again h fs : ∀ c seen fs' cs',
  apply_loop h (c, seen) fs = (fs', Ok cs') →
  ∀ c0, apply_loop h (c0, seen) fs' = (fs', Ok (c0, cs'.2)).
Proof.
  induction fs as [|f fs IH]; intros c seen fs' cs' Hrun c0; cbn in Hrun.
  - by simplify_eq.
  - destruct (apply_feature h (c, seen) f) as [f1 [[c1 s1]|e]] eqn:Hf;
      [|by simplify_eq].
    destruct (apply_loop h (c1, s1) fs) as [fs1 r] eqn:Hl.
    simplify_eq. cbn.
    rewrite (apply_feature_again _ _ _ _ _ _ Hf c0). cbn [snd].
    by rewrite (IH _ _ _ _ Hl c0).
Qed.

(** C10.  When [apply_settings doc h] succeeds and leaves the document
    [doc'], applying [h] to [doc'] succeeds too, returns [changed = False]
    and leaves [doc'] as it is. *)
Theorem apply_settings_idempotent (doc doc' : Element) h (changed : bool) :
  apply_settings doc h = (doc', Ok changed) →
  apply_settings doc' h = (doc', Ok false).
Proof.
  unfold apply_settings. intros Hrun.
  destruct (apply_loop h (false, []) (children doc)) as [fs r] eqn:Hl.
  destruct r as [[c seen]|e]; [|by simplify_eq].
  cbn [mbind except_bind fst snd] in Hrun.
  destruct (decide (length seen ≠ length h)) as [|Hlen]; [by simplify_eq|].
  simplify_eq. cbn [children tag attrib text tail].
  rewrite (apply_loop_again _ _ _ _ _ _ Hl false).
  cbn [mbind except_bind fst snd]. by rewrite decide_False.
Qed.

(** *** What [apply_settings] has seen *)

Lemma elem_of_set_add k n seen : k ∈ set_add n seen ↔ k ∈ seen ∨ k = n.
Proof.
  unfold set_add. case_decide as Hn.
  - split; [by left|]. intros [?| ->]; done.
  - rewrite elem_of_app, list_elem_of_singleton. done.
Qed.

Lemma NoDup_set_add n seen : NoDup seen → NoDup (set_add n seen).
Proof.
  unfold set_add. intros Hnd. case_decide as Hn; [done|].
  apply NoDup_app. repeat split; [done| |apply NoDup_singleton].
  intros x Hx ->%list_elem_of_singleton. done.
Qed.

Lemma text_of_Ok (x : option Element) name :
  text_of x = Ok name → x ≫= text = name.
Proof. destruct x; cbn; congruence. Qed.

Lemma apply_feature_seen h c seen f f' cs' :
  apply_feature h (c, seen) f = (f', Ok cs') →
  (∀ k, k ∈ cs'.2 ↔
        k ∈ seen ∨ (k ∈ keys h ∧ tag f = "feature"
                    ∧ find f "feature_name" ≫= text = Some k))
  ∧ (NoDup seen → NoDup cs'.2).
Proof.
  unfold apply_feature. intros Hrun.
  destruct (decide (tag f ≠ "feature")) as [Ht|Ht].
  { simplify_eq. cbn. split; [|done]. intros k. split; [by left|].
    intros [?|(_ & ? & _)]; done. }
  apply dec_stable in Ht.
  destruct (text_of (find f "feature_name")) as [name|] eqn:Hname;
    [|done].
  apply text_of_Ok in Hname.
  destruct (name ≫= λ n, pair n <$> dict_lookup n h) as [[n v]|] eqn:Hin.
  - destruct name as [n'|]; [|done]. cbn in Hin.
    destruct (dict_lookup n' h) as [v'|] eqn:Hl; [|done].
    cbn in Hin. simplify_eq.
    assert (n ∈ keys h) as Hn.
    { destruct (decide (n ∈ keys h)) as [|Hn]; [done|].
      apply lookup_None in Hn. congruence. }
    assert (cs'.2 = set_add n seen) as ->.
    { cbn [fst snd] in Hrun.
      destruct (decide (get f "feature_type" = Some "option")).
      - destruct (option_ids f v) as [[|oid ?]|]; [|by simplify_eq|done].
        by destruct (et_tostring f).
      - destruct (decide (get f "feature_type" = Some "string")); [|done].
        destruct (find f "feature_value"); by simplify_eq. }
    split; [|apply NoDup_set_add]. intros k. rewrite elem_of_set_add.
    split; (intros [?|Hk]; [by left|right]).
    + by subst.
    + destruct Hk as (_ & _ & Hk). congruence.
  - simplify_eq. cbn. split; [|done]. intros k. split; [by left|].
    intros [?|(Hk & _ & Hn)]; [done|].
    rewrite Hn in Hin. cbn in Hin.
    destruct (dict_lookup k h) eqn:Hl; [done|].
    by apply lookup_None in Hl.
Qed.

Lemma apply_loop_seen h fs : ∀ c seen fs' cs',
  apply_loop h (c, seen) fs = (fs', Ok cs') →
  (∀ k, k ∈ cs'.2 ↔ k ∈ seen ∨ (k ∈ keys h ∧ k ∈ omap feature_name_of fs))
  ∧ (NoDup seen → NoDup cs'.2).
Proof.
  induction fs as [|f fs IH]; intros c seen fs' cs' Hrun; cbn in Hrun.
  - simplify_eq. cbn. split; [|done]. intros k. split; [by left|].
    intros [?|[_ ?%elem_of_nil]]; done.
  - destruct (apply_feature h (c, seen) f) as [f1 [[c1 s1]|e]] eqn:Hf;
      [|by simplify_eq].
    destruct (apply_loop h (c1, s1) fs) as [fs1 r] eqn:Hl.
    simplify_eq.
    destruct (apply_feature_seen _ _ _ _ _ _ Hf) as [Hf1 Hf2].
    destruct (IH _ _ _ _ Hl) as [Hl1 Hl2]. cbn [snd] in *.
    split; [|by auto]. intros k. rewrite Hl1, Hf1.
    rewrite !list_elem_of_omap. split.
    + intros [[?|(Hk & Ht & Hn)]|(Hk & g & Hg & Hgn)]; [by left|right..].
      * split; [done|]. exists f. split; [left|]. unfold feature_name_of.
        by rewrite decide_True.
      * split; [done|]. exists g. split; [by right|done].
    + intros [?|(Hk & g & Hg & Hgn)]; [by left; left|].
      apply elem_of_cons in Hg as [->|Hg].
      * left; right. unfold feature_name_of in Hgn.
        case_decide; [done|done].
      * right. split; [done|]. by exists g.
Qed.

Lemma filter_ext_in {A} (P Q : A → Prop) `{!∀ x, Decision (P x)}
    `{!∀ x, Decision (Q x)} (l : list A) :
  (∀ x, x ∈ l → P x ↔ Q x) → filter P l = filter Q l.
Proof.
  induction l as [|x l IH]; intros Hpq; [done|].
  rewrite !filter_cons.
  rewrite IH by (intros y Hy; apply Hpq; by right).
  destruct (decide (P x)) as [HP|HP], (decide (Q x)) as [HQ|HQ]; try done.
  - destruct HQ. apply Hpq; [left|done].
  - destruct HP. apply Hpq; [left|done].
Qed.

(** C7.  When the loop of [apply_settings] got through every feature and
    has seen fewer names than the desired mapping [h] has keys, the names
    seen are exactly the keys of [h] that name a feature, some key of [h]
    names none, and [apply_settings] raises the [HprcuError] whose message
    lists, in the order of [h], every key of [h] that names no feature. *)
Theorem apply_settings_unknown_features (doc : Element) h fs
    (cs : bool * list string) :
  wf h →
  apply_loop h (false, []) (children doc) = (fs, Ok cs) →
  length cs.2 < length h →
  (∀ k, k ∈ cs.2 ↔ k ∈ keys h ∧ k ∈ feature_names doc)
  ∧ (∃ k, k ∈ keys h ∧ k ∉ feature_names doc)
  ∧ (apply_settings doc h).2
    = Raise (HprcuError
               ("Some features are unknown to this hprcu: "
                +:+ String.concat ", "
                      (filter (λ k, k ∉ feature_names doc) (keys h)))).
Proof.
  intros Hwf Hl Hlen.
  destruct (apply_loop_seen _ _ _ _ _ _ Hl) as [Hseen Hnd].
  assert (∀ k, k ∈ cs.2 ↔ k ∈ keys h ∧ k ∈ feature_names doc) as Hiff.
  { intros k. rewrite Hseen. unfold feature_names.
    split; [intros [?%elem_of_nil|?]; done|by right]. }
  split; [done|]. split.
  - destruct (filter (λ k, k ∉ feature_names doc) (keys h))
      as [|k ks] eqn:Hf.
    + exfalso.
      assert (keys h ⊆+ cs.2) as Hsub.
      { apply NoDup_submseteq; [done|]. intros k Hk. apply Hiff.
        split; [done|].
        destruct (decide (k ∈ feature_names doc)) as [|Hn]; [done|].
        by destruct (filter_nil_not_elem_of _ _ k Hf Hn). }
      apply submseteq_length in Hsub. unfold keys in Hsub.
      rewrite length_fmap in Hsub. lia.
    + exists k.
      assert (k ∈ filter (λ k, k ∉ feature_names doc) (keys h)) as Hk
        by (rewrite Hf; left).
      apply list_elem_of_filter in Hk as [? ?]. done.
  - unfold apply_settings. rewrite Hl. cbn [snd mbind except_bind].
    rewrite decide_True by lia. unfold unknown_features_msg.
    do 4 f_equal. apply filter_ext_in. intros k Hk.
    rewrite Hiff. split; [by intros Hn ?; apply Hn|].
    intros Hn [_ ?]. done.
Qed.

(** *** Runs of the module *)
Context (hw : host).

Lemma hprcu_run_body_eq (m : module_t) s :
  run_body hw m s
  = match run_plan hw m s with
    | (s', Ok odc) => run_apply hw m odc.1 odc.2.1 odc.2.2 s'
    | (s', Raise e) => (s', Raise e)
    end.
Proof. done. Qed.

Lemma hprcu_run_plan_check_mode b (m : module_t) :
  run_plan hw (with_check_mode b m) = run_plan hw m.
Proof. done. Qed.

(** Reading and planning run the tool with [-s] only. *)
Lemma hprcu_run_plan_calls (m : module_t) s :
  existsb is_load (calls (run_plan hw m s).1) = existsb is_load (calls s).
Proof.
  assert (∀ i, existsb is_load (calls s ++ [ {| command := i; mode := flag_s;
                 scratch := EmptyString |} ]) = existsb is_load (calls s))
    as Hs by (intros; rewrite existsb_app; cbn; apply orb_false_r).
  unfold run_plan, read_settings, call_hprcu.
  unfold mbind, M_bind, bind, lift, mret, M_ret, ret, modify.
  destruct (decide (returncode (on_save hw) ≠ 0%Z)); [apply Hs|].
  destruct (saved hw) as [old|]; [|apply Hs].
  set (s1 := {| calls := _ |}).
  assert (existsb is_load (calls s1) = existsb is_load (calls s)) as <-
    by apply Hs.
  clearbody s1.
  assert (∀ dc : option Element * bool,
    existsb is_load
      (calls
         (let (s', e0) :=
            (if _diff m
             then λ s0 : st,
                    match mk_diff (Some old) dc.1 with
                    | Ok a => (set_diff a s0, Ok ())
                    | Raise e => (s0, Raise e)
                    end
             else λ s0 : st, (s0, Ok ())) s1 in
          match e0 with
          | Ok _ => (s', Ok (old, dc))
          | Raise e => (s', Raise e)
          end).1) = existsb is_load (calls s1)) as Hdiff.
  { intros dc. destruct (_diff m); [|done].
    by destruct (mk_diff (Some old) dc.1). }
  destruct (decide (settings (params m) ≠ [])).
  - destruct (apply_settings old (settings (params m))) as [doc [c|]];
      [|done].
    destruct (decide (settings_xml (params m) ≠ EmptyString));
      [|apply Hdiff].
    destruct (ET_fromstring (settings_xml (params m))) as [d|]; [|done].
    destruct (doc_yield_changes old d) as [c'|]; [apply Hdiff|done].
  - destruct (decide (settings_xml (params m) ≠ EmptyString));
      [|apply Hdiff].
    destruct (ET_fromstring (settings_xml (params m))) as [d|]; [|done].
    destruct (doc_yield_changes old d) as [c'|]; [apply Hdiff|done].
Qed.

(** A check-mode run never runs the tool with [-l]; and it ends as the
    real run does whenever every [-l] run of the real run exits with 0. *)
Lemma hprcu_check_mode_run (m : module_t) :
  existsb is_load (run_module hw (with_check_mode true m)).1 = false
  ∧ ((∀ i, i ∈ (run_module hw (with_check_mode false m)).1 →
           is_load i = true →
           returncode (on_load hw (scratch i)) = 0%Z) →
     (run_module hw (with_check_mode true m)).2
     = (run_module hw (with_check_mode false m)).2).
Proof.
  unfold run_module. rewrite !hprcu_run_body_eq, !hprcu_run_plan_check_mode.
  pose proof (hprcu_run_plan_calls m initial) as Hcalls.
  destruct (run_plan hw m initial) as [s1 [[old [doc ch]]|e]];
    cbn in Hcalls.
  2:{ split; [by destruct e|done]. }
  unfold run_apply, write_settings, call_hprcu.
  unfold mbind, M_bind, bind, lift, mret, M_ret, ret, modify.
  cbn [fst snd with_check_mode check_mode params _verbosity negb].
  set (facts_of := doc2facts match doc with
                             | Some _ => doc
                             | None => Some old
                             end).
  destruct ch.
  2:{ split; [|done]. destruct (facts (params m)); [|done].
      by destruct facts_of as [|[]]. }
  destruct (doc2string doc) as [f|e] eqn:Hf.
  2:{ split; [by destruct e|done]. }
  set (dbg := match doc with Some _ => Ok f | None => Ok EmptyString end).
  clearbody dbg.
  split.
  { destruct (bool_decide (3 ≤ _verbosity m)), (facts (params m));
      try destruct dbg as [|[]]; try destruct facts_of as [|[]]; done. }
  intros Hok.
  destruct (decide (returncode (on_load hw f) ≠ 0%Z)) as [Hrc|_].
  { destruct Hrc. cbn in Hok.
    apply (Hok {| command := [hprcu (params m); "-a"];
                  mode := flag_l; scratch := f |}); [|done].
    apply elem_of_app. right. apply list_elem_of_singleton. done. }
  destruct (bool_decide (3 ≤ _verbosity m)), (facts (params m));
    try destruct dbg as [|[]]; try destruct facts_of as [|[]]; done.
Qed.

(** *** Where the code leaves its own error taxonomy *)

(** A feature named in [h] whose type is neither [option] nor [string]:
    the [raise] reads the undefined name [n]. *)
Lemma apply_feature_unknown_type h cs f n v :
  tag f = "feature" →
  text_of (find f "feature_name") = Ok (Some n) →
  dict_lookup n h = Some v →
  get f "feature_type" ≠ Some "option" →
  get f "feature_type" ≠ Some "string" →
  apply_feature h cs f = (f, Raise (NameError "n")).
Proof.
  intros Ht Hn Hl Ho Hs. unfold apply_feature.
  rewrite decide_False by (by intros []).
  rewrite Hn. cbn. rewrite Hl. cbn.
  by rewrite !decide_False by done.
Qed.

(** An option feature named in [h] none of whose options is displayed as
    the desired value: after serializing the feature, the [raise] reads the
    undefined name [HprcuErrror]. *)
Lemma apply_feature_unknown_option h cs f n v :
  tag f = "feature" →
  text_of (find f "feature_name") = Ok (Some n) →
  dict_lookup n h = Some v →
  get f "feature_type" = Some "option" →
  option_ids f v = Ok [] →
  apply_feature h cs f
  = (f, x ← et_tostring f; Raise (NameError "HprcuErrror")).
Proof.
  intros Ht Hn Hl Ho Hids. unfold apply_feature.
  rewrite decide_False by (by intros []).
  rewrite Hn. cbn. rewrite Hl. cbn.
  rewrite decide_True by done. by rewrite Hids.
Qed.

(** With neither [settings] nor [settings_xml], [doc] stays [None] and a
    requested diff calls [write] on it. *)
Lemma diff_of_nothing (m : module_t) old b :
  returncode (on_save hw) = 0%Z →
  saved hw = Ok old →
  ET_write old = Ok b →
  settings (params m) = [] →
  settings_xml (params m) = EmptyString →
  _diff m = true →
  run_module hw m
  = ([ {| command := [hprcu (params m); "-a"]; mode := flag_s;
          scratch := EmptyString |} ],
     uncaught (AttributeError "write")).
Proof.
  intros Hrc Hsaved Hw Hs Hx Hd.
  unfold run_module, run_body, run_plan, read_settings, call_hprcu.
  unfold mbind, M_bind, bind, lift, mret, M_ret, ret, modify.
  destruct (decide (returncode (on_save hw) ≠ 0%Z)) as [|_]; [done|].
  rewrite Hsaved, Hs, Hx, Hd. cbn. unfold mk_diff, doc2string.
  by rewrite Hw.
Qed.

(** The scan of [doc_yield_changes] when every id of the candidate is known:
    [True] exactly when some id carries another value than before. *)
Lemma yield_scan_known (x y : list (option string * option string)) :
  (∀ k, k ∈ keys y → contains x k = true) →
  yield_scan x y
  = Ok (bool_decide (Exists (λ kv, dict_lookup kv.1 x ≠ Some kv.2) y)).
Proof.
  induction y as [|[k v] y IH]; intros Hin.
  - cbn [yield_scan]. rewrite bool_decide_eq_false_2; [done|].
    by intros ?%Exists_nil.
  - cbn [yield_scan].
    assert (contains x k = true) as Hk
      by (apply Hin; rewrite keys_cons; left).
    rewrite Hk. cbn [negb].
    apply contains_keys in Hk.
    destruct (dict_lookup k x) as [o|] eqn:Ho;
      [|by apply lookup_None in Ho].
    rewrite (getitem_Some _ _ _ Ho), bind_Ok. unfold py_eq.
    destruct (decide (o = v)) as [->|Hov].
    + rewrite bool_decide_eq_true_2 by done. cbn [negb].
      rewrite IH by (intros k' Hk'; apply Hin; rewrite keys_cons; by right).
      f_equal. apply bool_decide_ext. rewrite Exists_cons. cbn [fst snd].
      rewrite Ho. split; [by right|]. by intros [?|?].
    + rewrite bool_decide_eq_false_2 by done. cbn [negb].
      rewrite bool_decide_eq_true_2; [done|].
      apply Exists_cons. left. cbn [fst snd]. rewrite Ho. congruence.
Qed.

(** The scan stops at the first id that is unknown or differs: an unknown
    id behind a difference is never looked at. *)
Lemma yield_scan_stops (x y1 y2 : list (option string * option string))
    k v o :
  (∀ kv, kv ∈ y1 → dict_lookup kv.1 x = Some kv.2) →
  dict_lookup k x = Some o → o ≠ v →
  yield_scan x (y1 ++ (k, v) :: y2) = Ok true.
Proof.
  intros Hsame Ho Hov.
  induction y1 as [|[k1 v1] y1 IH]; cbn [app yield_scan].
  - unfold contains, getitem, py_eq. rewrite Ho.
    rewrite bool_decide_eq_true_2 by eauto. cbn.
    by rewrite bool_decide_eq_false_2.
  - pose proof (Hsame (k1, v1) ltac:(left)) as H1. cbn in H1.
    unfold contains, getitem, py_eq. rewrite H1.
    rewrite bool_decide_eq_true_2 by eauto. cbn.
    rewrite bool_decide_eq_true_2 by done. cbn.
    apply IH. intros kv Hkv. apply Hsame. by right.
Qed.

(** A desired name that no feature answers to makes [apply_settings]
    raise, in the loop or after it. *)
Lemma apply_settings_unknown_name (doc : Element) h :
  (∃ k, k ∈ keys h ∧ k ∉ feature_names doc) →
  ∃ e, (apply_settings doc h).2 = Raise e.
Proof.
  intros (k & Hk & Hn). unfold apply_settings.
  destruct (apply_loop h (false, []) (children doc)) as [fs [[c seen]|e]]
    eqn:Hl; [|by eexists].
  destruct (apply_loop_seen _ _ _ _ _ _ Hl) as [Hseen Hnd].
  cbn [snd mbind except_bind fst] in *.
  rewrite decide_True; [by eexists|].
  assert (seen ⊆+ filter (λ x, x ≠ k) (keys h)) as Hsub.
  { apply NoDup_submseteq; [apply Hnd, NoDup_nil_2|].
    intros x Hx. apply Hseen in Hx as [?%elem_of_nil|[Hx Hxn]]; [done|].
    apply list_elem_of_filter. split; [|done]. by intros ->. }
  apply submseteq_length in Hsub.
  pose proof (length_filter_lt (λ x, x ≠ k) (keys h) k Hk) as Hlt.
  unfold keys in Hlt. rewrite length_fmap in Hlt.
  assert (¬ k ≠ k) as Hkk by (by intros []).
  specialize (Hlt Hkk). unfold keys in Hsub. lia.
Qed.

(** X19.  So a run whose [settings] hold such a name never runs the tool with
    [-l], whatever else was asked. *)
Lemma unknown_name_no_load (m : module_t) old :
  saved hw = Ok old →
  (∃ k, k ∈ keys (settings (params m)) ∧ k ∉ feature_names old) →
  existsb is_load (run_module hw m).1 = false.
Proof.
  intros Hsaved Hex.
  assert (settings (params m) ≠ []) as Hne.
  { destruct Hex as (k & Hk & _). intros Hnil. rewrite Hnil in Hk.
    by apply elem_of_nil in Hk. }
  destruct (apply_settings_unknown_name old _ Hex) as [e He].
  unfold run_module, run_body, run_plan, read_settings, call_hprcu.
  unfold mbind, M_bind, bind, lift, mret, M_ret, ret, modify.
  destruct (decide (returncode (on_save hw) ≠ 0%Z)); [done|].
  rewrite Hsaved, decide_True by done.
  destruct (apply_settings old (settings (params m))) as [doc r].
  cbn in He. subst r. by destruct e.
Qed.
End hprcu.
End HprcuFacts.

(** ** Both adapters *)
Section both_adapters.
Import Py.
Context `{ElementTreeLib} (hw : host).

(** C9, as amended.  In check mode neither adapter runs the tool with
    [-l]; and whenever every [-l] run of the real (non-check) run exits
    with status 0, the check-mode run ends exactly as the real run does:
    the same [exit_json], [fail_json] or exception, with the same
    [changed], [diff], debug text and facts. *)
Theorem check_mode_reports_as_real_run
    (mc : Conrep.module_t) (mh : Hprcu.module_t) :
  (existsb is_load
     (Conrep.run_module hw (Conrep.with_check_mode true mc)).1 = false
   ∧ ((∀ i, i ∈ (Conrep.run_module hw (Conrep.with_check_mode false mc)).1 →
            is_load i = true →
            returncode (on_load hw (scratch i)) = 0%Z) →
      (Conrep.run_module hw (Conrep.with_check_mode true mc)).2
      = (Conrep.run_module hw (Conrep.with_check_mode false mc)).2))
  ∧ (existsb is_load
       (Hprcu.run_module hw (Hprcu.with_check_mode true mh)).1 = false
     ∧ ((∀ i, i ∈ (Hprcu.run_module hw (Hprcu.with_check_mode false mh)).1 →
              is_load i = true →
              returncode (on_load hw (scratch i)) = 0%Z) →
        (Hprcu.run_module hw (Hprcu.with_check_mode true mh)).2
        = (Hprcu.run_module hw (Hprcu.with_check_mode false mh)).2)).
Proof.
  split.
  - apply ConrepFacts.conrep_check_mode_run.
  - apply HprcuFacts.hprcu_check_mode_run.
Qed.
End both_adapters.

(** ** The code at concrete inputs *)
Module Runs.
Import Py Examples.

(** The scenario of the flat adapter. *)
Example flat_scenario :
  Conrep.parse_dat power_doc = Ok power_C
  ∧ Conrep.filter_changed_settings power_C power_D = Ok power_D
  ∧ Conrep.run_module (healthy power_doc) (conrep_module power_D false false)
    = ([conrep_save;
        {| command := command conrep_save; mode := flag_l;
           scratch := Conrep.render power_D |}],
       Conrep.exit_json
         {| Conrep.changed := true;
            Conrep.ansible_facts_conrep :=
              Some [(Some "PowerMonitoring", Some "Disabled");
                    (Some "Turbo", Some "Enabled")];
            Conrep.diff := None; Conrep.debug := None |}).
Proof. by vm_compute. Qed.

(** The scenario of the structured adapter. *)
Example structured_scenario :
  Hprcu.apply_settings ht_doc [("Hyperthreading", Some "Disabled")]
  = (hprcu_doc [hyperthreading "2"], Ok true)
  ∧ Hprcu.doc2facts (Some (hprcu_doc [hyperthreading "2"]))
    = Ok [(Some "Hyperthreading", Some "Disabled")].
Proof. by vm_compute. Qed.

(** C3.  The desired value [Off] is the display name of no option of
    [Hyperthreading]: [apply_settings] does not raise [HprcuError] but
    [NameError] for the misspelt [HprcuErrror], which [run_module] does not
    catch. *)
Theorem unknown_option_value_raises_NameError :
  Hprcu.apply_settings ht_doc [("Hyperthreading", Some "Off")]
  = (ht_doc, Raise (NameError "HprcuErrror"))
  ∧ Hprcu.run_module (healthy ht_doc)
      (hprcu_module [("Hyperthreading", Some "Off")] EmptyString false false)
    = ([hprcu_save], Hprcu.uncaught (NameError "HprcuErrror")).
Proof. by vm_compute. Qed.

(** C4.  The feature [Speed] has the type [numeric] and is named in the
    desired mapping: [apply_settings] does not raise [HprcuError] but
    [NameError] for the undefined [n], and [run_module] lets it through
    instead of ending in [fail_json]. *)
Theorem unknown_feature_type_raises_NameError :
  Hprcu.apply_settings numeric_doc [("Speed", Some "3")]
  = (numeric_doc, Raise (NameError "n"))
  ∧ Hprcu.run_module (healthy numeric_doc)
      (hprcu_module [("Speed", Some "3")] EmptyString false false)
    = ([hprcu_save], Hprcu.uncaught (NameError "n")).
Proof. by vm_compute. Qed.

(** C5.  A diff is requested and neither [settings] nor [settings_xml] is
    given: [mk_diff] serializes [doc = None] and the run ends in an
    [AttributeError], with no diff. *)
Theorem diff_of_nothing_raises_AttributeError :
  Hprcu.run_module (healthy ht_doc) (hprcu_module [] EmptyString true false)
  = ([hprcu_save], Hprcu.uncaught (AttributeError "write")).
Proof. by vm_compute. Qed.

(** C6.  The candidate [cand_AB] has the feature id 2, which the old
    document [old_A] lacks, behind the id 1, whose value differs:
    [doc_yield_changes] returns [True] and raises nothing. *)
Theorem doc_yield_changes_misses_unknown_id :
  Hprcu.doc2dict old_A = Ok [(Some "1", Some "a")]
  ∧ Hprcu.doc2dict cand_AB = Ok [(Some "1", Some "b"); (Some "2", Some "c")]
  ∧ contains [(Some "1", Some "a")] (Some "2") = false
  ∧ Hprcu.doc_yield_changes old_A cand_AB = Ok true.
Proof. by vm_compute. Qed.

(** C2.  With the same documents, [settings_xml] being [cand_AB]: the
    desired state has the key 2 that the current state lacks, and the run
    loads the candidate into the tool all the same. *)
Theorem load_despite_unknown_feature_id :
  ET_fromstring (show cand_AB) = Ok cand_AB
  ∧ Hprcu.doc2dict old_A = Ok [(Some "1", Some "a")]
  ∧ Hprcu.doc2dict cand_AB = Ok [(Some "1", Some "b"); (Some "2", Some "c")]
  ∧ Hprcu.run_module (healthy old_A)
      (hprcu_module [] (show cand_AB) false false)
    = ([hprcu_save; hprcu_load (show cand_AB)],
       Hprcu.exit_json
         {| Hprcu.changed := true;
            Hprcu.ansible_facts_hprcu :=
              Some [(Some "A", Some "b"); (Some "B", Some "c")];
            Hprcu.diff := None; Hprcu.debug := None |}).
Proof. by vm_compute. Qed.

(** C9 as stated fails, in either adapter: the tool refuses the load, so the
    real run fails with [changed] false while the check-mode run reports
    [changed] true. *)
Lemma check_mode_report_differs :
  Conrep.reported
    (Conrep.run_module (refusing power_doc)
       (Conrep.with_check_mode true (conrep_module power_D true false))).2
  ≠ Conrep.reported
      (Conrep.run_module (refusing power_doc)
         (Conrep.with_check_mode false (conrep_module power_D true false))).2
  ∧ Hprcu.reported
      (Hprcu.run_module (refusing ht_doc)
         (Hprcu.with_check_mode true
            (hprcu_module [("Hyperthreading", Some "Disabled")] EmptyString
               true false))).2
    ≠ Hprcu.reported
        (Hprcu.run_module (refusing ht_doc)
           (Hprcu.with_check_mode false
              (hprcu_module [("Hyperthreading", Some "Disabled")] EmptyString
                 true false))).2.
Proof. split; vm_compute; discriminate. Qed.

(** *** The theorems at concrete inputs *)

Lemma filter_changed_settings_spec_witness :
  Conrep.filter_changed_settings power_C power_D
  = Ok (Conrep.changedSubset power_C power_D)
  ∧ Conrep.merge_dicts power_C (Conrep.changedSubset power_C power_D)
    = Conrep.merge_dicts power_C power_D
  ∧ keys (Conrep.merge_dicts power_C power_D) = keys power_C
  ∧ (∀ k, dict_lookup k (Conrep.merge_dicts power_C power_D)
          = match dict_lookup k power_D with
            | Some v => Some v
            | None => dict_lookup k power_C
            end)
  ∧ ∃ tr res,
      Conrep.run_module (healthy power_doc)
        (conrep_module power_D true false)
      = (tr, Conrep.exit_json res)
      ∧ Conrep.ansible_facts_conrep res
        = Some [(Some "PowerMonitoring", Some "Disabled");
                (Some "Turbo", Some "Enabled")].
Proof.
  destruct (ConrepFacts.filter_changed_settings_spec (healthy power_doc)
              power_C power_D) as (H1 & H2 & H3 & H4 & Hrun).
  - apply NoDup_singleton.
  - intros k Hk. apply list_elem_of_singleton in Hk. subst k. reflexivity.
  - destruct (Hrun (conrep_module power_D true false) power_doc)
      as [Hfacts Hends].
    + reflexivity.
    + reflexivity.
    + vm_compute. reflexivity.
    + reflexivity.
    + reflexivity.
    + destruct Hends as (tr & res & Hres).
      * intros _. vm_compute. eexists. reflexivity.
      * right. reflexivity.
      * repeat split; try assumption.
        exists tr, res. split; [exact Hres|].
        exact (Hfacts tr res Hres).
Defined.

Lemma check_settings_unknown_key_witness :
  Conrep.check_settings power_C stray_D
  = Raise (ConrepError
             ("Setting 'Boost' (value: Off) isn't known by conrep - "
              +:+ "perhaps you need a special hardware definition file?"))
  ∧ Conrep.run_module (healthy power_doc) (conrep_module stray_D true false)
    = ([conrep_save],
       Conrep.fail_json
         ("Setting 'Boost' (value: Off) isn't known by conrep - "
          +:+ "perhaps you need a special hardware definition file?")
         {| Conrep.changed := false; Conrep.ansible_facts_conrep := None;
            Conrep.diff := None; Conrep.debug := None |}).
Proof.
  destruct (ConrepFacts.check_settings_unknown_key (healthy power_doc)
              (conrep_module stray_D true false) power_doc power_C stray_D)
    as (D1 & k & v & D2 & HD & Hk & Hpre & Hchk & Hrun).
  - reflexivity.
  - reflexivity.
  - vm_compute. reflexivity.
  - reflexivity.
  - exists (Some "Boost"). split; [|vm_compute; reflexivity].
    right. left.
  - assert ((k, v) = (Some "Boost", Some "Off")) as Hkv.
    { unfold stray_D in HD.
      destruct D1 as [|d1 [|d2 D1]]; cbn [app] in HD; simplify_eq.
      + reflexivity.
      + assert (contains power_C (Some "Boost") = true) as Hb
          by (apply Hpre; right; left).
        vm_compute in Hb. discriminate. }
    injection Hkv as -> ->. split; [exact Hchk|exact Hrun].
Defined.

Lemma apply_settings_unknown_features_witness :
  let h := [("Hyperthreading", Some "Disabled"); ("A", None); ("B", None)] in
  (∀ k, k ∈ ["Hyperthreading"] ↔ k ∈ keys h ∧ k ∈ Hprcu.feature_names ht_doc)
  ∧ (∃ k, k ∈ keys h ∧ k ∉ Hprcu.feature_names ht_doc)
  ∧ (Hprcu.apply_settings ht_doc h).2
    = Raise (HprcuError
               ("Some features are unknown to this hprcu: "
                +:+ String.concat ", "
                      (filter (λ k, k ∉ Hprcu.feature_names ht_doc)
                              (keys h)))).
Proof.
  intros h.
  apply (HprcuFacts.apply_settings_unknown_features ht_doc h
           [hyperthreading "2"] (true, ["Hyperthreading"])).
  - unfold wf. apply (bool_decide_unpack _). vm_compute. exact I.
  - vm_compute. reflexivity.
  - vm_compute. lia.
Defined.

Lemma apply_settings_idempotent_witness :
  Hprcu.apply_settings (hprcu_doc [hyperthreading "2"])
    [("Hyperthreading", Some "Disabled")]
  = (hprcu_doc [hyperthreading "2"], Ok false).
Proof.
  apply (HprcuFacts.apply_settings_idempotent ht_doc
           (hprcu_doc [hyperthreading "2"])
           [("Hyperthreading", Some "Disabled")] true).
  vm_compute. reflexivity.
Defined.

Lemma check_mode_reports_as_real_run_witness :
  (Conrep.run_module (healthy power_doc)
     (Conrep.with_check_mode true (conrep_module power_D true false))).2
  = (Conrep.run_module (healthy power_doc)
       (Conrep.with_check_mode false (conrep_module power_D true false))).2
  ∧ (Hprcu.run_module (healthy ht_doc)
       (Hprcu.with_check_mode true
          (hprcu_module [("Hyperthreading", Some "Disabled")] EmptyString
             true false))).2
    = (Hprcu.run_module (healthy ht_doc)
         (Hprcu.with_check_mode false
            (hprcu_module [("Hyperthreading", Some "Disabled")] EmptyString
               true false))).2.
Proof.
  destruct (check_mode_reports_as_real_run (healthy power_doc)
              (conrep_module power_D true false)
              (hprcu_module [("Hyperthreading", Some "Disabled")] EmptyString
                 true false)) as [[_ Hc] _].
  destruct (check_mode_reports_as_real_run (healthy ht_doc)
              (conrep_module power_D true false)
              (hprcu_module [("Hyperthreading", Some "Disabled")] EmptyString
                 true false)) as [_ [_ Hh]].
  split; [apply Hc|apply Hh]; intros i _ _; reflexivity.
Defined.

End Runs.

(** ** More about the flat adapter *)
Module ConrepMore.
Import Py PyFacts Conrep ConrepFacts.

Lemma for_each_app {A S} (body : S → A → except S) s l1 l2 :
  for_each body s (l1 ++ l2)
  = (for_each body s l1 ≫= λ s', for_each body s' l2).
Proof.
  revert s. induction l1 as [|x l1 IH]; intros s; [done|].
  cbn [app]. rewrite !for_each_cons.
  destruct (body s x) as [s'|e]; [|done]. rewrite !bind_Ok. apply IH.
Qed.

Lemma elem_of_keys_setitem {K V} `{EqDecision K} (k k' : K) (v : V) d :
  k' ∈ keys (setitem k v d) ↔ k' = k ∨ k' ∈ keys d.
Proof.
  induction d as [|[k0 v0] d IH]; cbn [setitem].
  - rewrite keys_cons, elem_of_cons. done.
  - case_decide as Hk; rewrite !keys_cons, !elem_of_cons.
    + subst k0. split; [intros [?|?]; auto|intros [?|[?|?]]; auto].
    + rewrite IH. split; [intros [?|[?|?]]; auto|intros [?|[?|?]]; auto].
Qed.

Lemma wf_setitem {K V} `{EqDecision K} (k : K) (v : V) d :
  wf d → wf (setitem k v d).
Proof.
  induction d as [|[k0 v0] d IH]; cbn [setitem]; intros Hwf.
  - apply wf_cons. split; [apply not_elem_of_nil|done].
  - apply wf_cons in Hwf as [Hk0 Hwf]. case_decide as Hk.
    + subst k0. by apply wf_cons.
    + apply wf_cons. split; [|by apply IH].
      rewrite elem_of_keys_setitem. by intros [?|?].
Qed.

Section conrep.
Context `{ElementTreeLib}.
Implicit Types C D h : list (option string * option string).

(** *** [check_settings] *)

(** X1.  [check_settings] lets a desired mapping through exactly when each
    of its keys is a key of the current state. *)
Theorem check_settings_passes_iff C D :
  check_settings C D = Ok () ↔ ∀ k, k ∈ keys D → contains C k = true.
Proof.
  split; [|apply check_settings_known].
  intros Hok k Hk. destruct (contains C k) eqn:Hc; [done|].
  destruct (check_settings_first_unknown C D) as (? & ? & ? & ? & _ & _ & _ & E);
    [by eauto|]. congruence.
Qed.

(** *** [parse_dat] *)

Lemma parse_dat_loop (cs : list Element) : ∀ h C,
  for_each (λ h e,
    if decide (tag e ≠ "Section") then Ok h
    else
      let k := get e "name" in
      v ← (if decide (children e ≠ [])
           then xs ← mapM ET_tostring (children e);
                Ok (Some (String.concat EmptyString xs))
           else Ok (text e));
      Ok (setitem k v h)) h cs = Ok C →
  (wf h → wf C)
  ∧ (∀ k, k ∈ keys C ↔
          k ∈ keys h
          ∨ k ∈ (λ e, get e "name") <$> filter (λ e, tag e = "Section") cs).
Proof.
  induction cs as [|e cs IH]; intros h C Hrun.
  - cbn in Hrun. simplify_eq. split; [done|]. intros k.
    split; [by left|]. intros [?|?%elem_of_nil]; done.
  - rewrite for_each_cons in Hrun. rewrite filter_cons.
    destruct (decide (tag e ≠ "Section")) as [Ht|Ht].
    + rewrite bind_Ok in Hrun. rewrite decide_False by done. by apply IH.
    + apply dec_stable in Ht. rewrite decide_True by done.
      cbn zeta in Hrun.
      destruct (if decide (children e ≠ []) then _ else _) as [v|];
        [|done].
      rewrite !bind_Ok in Hrun. destruct (IH _ _ Hrun) as [Hwf Hkeys].
      split; [intros ?; by apply Hwf, wf_setitem|].
      intros k. rewrite Hkeys, elem_of_keys_setitem, fmap_cons, elem_of_cons.
      split; [intros [[?|?]|?]; auto|intros [?|[?|?]]; auto].
Qed.

(** X2.  What [parse_dat] returns is a proper dict, its keys distinct, and
    its keys are the [name]s of the [Section] children of the root: no
    section is dropped and nothing else gets in. *)
Theorem parse_dat_keys (r : Element) C :
  parse_dat r = Ok C →
  wf C ∧ ∀ k, k ∈ keys C ↔ k ∈ section_names r.
Proof.
  intros Hrun. destruct (parse_dat_loop _ _ _ Hrun) as [Hwf Hkeys].
  split; [apply Hwf, NoDup_nil_2|].
  intros k. rewrite Hkeys. unfold section_names.
  split; [intros [?%elem_of_nil|?]; done|by right].
Qed.

Lemma parse_dat_loop_keeps (cs : list Element) k (v : option string) :
  ∀ h C,
  for_each (λ h e,
    if decide (tag e ≠ "Section") then Ok h
    else
      let k := get e "name" in
      v ← (if decide (children e ≠ [])
           then xs ← mapM ET_tostring (children e);
                Ok (Some (String.concat EmptyString xs))
           else Ok (text e));
      Ok (setitem k v h)) h cs = Ok C →
  (∀ e, e ∈ cs → tag e = "Section" → get e "name" ≠ k) →
  dict_lookup k h = Some v → dict_lookup k C = Some v.
Proof.
  induction cs as [|e cs IH]; intros h C Hrun Hother Hl.
  - cbn in Hrun. by simplify_eq.
  - rewrite for_each_cons in Hrun.
    destruct (decide (tag e ≠ "Section")) as [Ht|Ht].
    + rewrite bind_Ok in Hrun. eapply IH; [done| |done].
      intros e' He'. apply Hother. by right.
    + apply dec_stable in Ht. cbn zeta in Hrun.
      destruct (if decide (children e ≠ []) then _ else _) as [v'|];
        [|done].
      rewrite !bind_Ok in Hrun. eapply IH; [done| |].
      * intros e' He'. apply Hother. by right.
      * rewrite lookup_setitem_ne; [done|]. apply Hother; [left|done].
Qed.

(** X3.  Of several [Section]s with one name the last one counts: a section
    without children that no later section shares its name with is read as
    its text. *)
Theorem parse_dat_last_wins (r : Element) C cs1 e cs2 :
  parse_dat r = Ok C →
  children r = cs1 ++ e :: cs2 →
  tag e = "Section" →
  children e = [] →
  (∀ e', e' ∈ cs2 → tag e' = "Section" → get e' "name" ≠ get e "name") →
  dict_lookup (get e "name") C = Some (text e).
Proof.
  unfold parse_dat. intros Hrun Hcs Ht Hleaf Hlater.
  rewrite Hcs, for_each_app in Hrun.
  destruct (for_each _ [] cs1) as [h1|]; [|done].
  rewrite bind_Ok, for_each_cons in Hrun.
  rewrite decide_False in Hrun by (by intros []).
  cbn zeta in Hrun. rewrite decide_False in Hrun by (by intros []).
  rewrite !bind_Ok in Hrun.
  eapply parse_dat_loop_keeps; [done..|]. apply lookup_setitem_eq.
Qed.

(** X4.  [parse_dat] reads the [Section] children only: every other child
    of the root, and the root's own tag, attributes and text, make no
    difference. *)
Theorem parse_dat_only_sections (r : Element) t a x tl :
  parse_dat r
  = parse_dat (Elem t a x tl (filter (λ e, tag e = "Section") (children r))).
Proof.
  unfold parse_dat. destruct r as [t0 a0 x0 tl0 cs]. cbn [children].
  generalize (@nil (option string * option string)).
  induction cs as [|e cs IH]; intros h; [done|].
  rewrite filter_cons. destruct (decide (tag e = "Section")) as [Ht|Ht].
  - rewrite !for_each_cons.
    rewrite (decide_False (P := tag e ≠ "Section")) by (by intros []).
    cbn zeta.
    destruct (if decide (children e ≠ []) then _ else _) as [v|]; [|done].
    rewrite !bind_Ok. apply IH.
  - rewrite for_each_cons. rewrite decide_True by done. rewrite bind_Ok.
    apply IH.
Qed.
End conrep.

(** *** The order of the diff *)

Lemma ascii_compare_lt_trans a b c :
  Ascii.compare a b = Lt → Ascii.compare b c = Lt → Ascii.compare a c = Lt.
Proof. unfold Ascii.compare. rewrite !N.compare_lt_iff. lia. Qed.

Lemma string_leb_trans a : ∀ b c,
  String.leb a b = true → String.leb b c = true → String.leb a c = true.
Proof.
  unfold String.leb.
  induction a as [|x a IH]; intros [|y b] [|z c]; cbn; try done.
  destruct (Ascii.compare x y) eqn:Hxy; [| |done].
  - apply Ascii.compare_eq_iff in Hxy as ->.
    destruct (Ascii.compare y z) eqn:Hyz; [|done..]. apply IH.
  - destruct (Ascii.compare y z) eqn:Hyz; [| |done].
    + apply Ascii.compare_eq_iff in Hyz as <-. by rewrite Hxy.
    + by rewrite (ascii_compare_lt_trans _ _ _ Hxy Hyz).
Qed.

#[local] Instance key_le_trans : Transitive key_le.
Proof. intros a b c. apply string_leb_trans. Qed.

Lemma insert_item_perm x l : insert_item x l ≡ₚ x :: l.
Proof.
  induction l as [|y l IH]; cbn; [done|].
  destruct (String.leb x.1 y.1); [done|]. rewrite IH. apply perm_swap.
Qed.

Lemma sort_items_perm l : sort_items l ≡ₚ l.
Proof.
  unfold sort_items. induction l as [|x l IH]; cbn; [done|].
  by rewrite insert_item_perm, IH.
Qed.

Lemma insert_item_Sorted x l :
  Sorted key_le l → Sorted key_le (insert_item x l).
Proof.
  induction l as [|y l IH]; cbn; intros Hs.
  - by repeat constructor.
  - destruct (String.leb x.1 y.1) eqn:Hxy.
    + constructor; [done|]. by constructor.
    + apply Sorted_inv in Hs as [Hs Hhd]. constructor; [by apply IH|].
      assert (key_le y x) as Hyx.
      { unfold key_le. destruct (String.leb_total x.1 y.1); congruence. }
      destruct l as [|z l]; cbn; [by constructor|].
      destruct (String.leb x.1 z.1); constructor; [done|].
      by apply HdRel_inv in Hhd.
Qed.

Lemma sort_items_Sorted l : Sorted key_le (sort_items l).
Proof.
  unfold sort_items. induction l as [|x l IH]; cbn; [constructor|].
  by apply insert_item_Sorted.
Qed.

Lemma same_key_same_item (l : list (string * option string)) x y :
  NoDup l.*1 → x ∈ l → y ∈ l → x.1 = y.1 → x = y.
Proof.
  induction l as [|z l IH]; cbn; intros Hnd Hx Hy Hxy.
  - by apply elem_of_nil in Hx.
  - apply NoDup_cons in Hnd as [Hz Hnd].
    apply elem_of_cons in Hx as [->|Hx]; apply elem_of_cons in Hy as [->|Hy].
    + done.
    + destruct Hz. rewrite Hxy. by apply list_elem_of_fmap_2.
    + destruct Hz. rewrite <-Hxy. by apply list_elem_of_fmap_2.
    + by apply IH.
Qed.

Lemma mapM_str_keys (l : list (string * option string)) :
  mapM (λ kv : option string * option string, k ← kv.1; Some (k, kv.2))
       (prod_map Some id <$> l) = Some l.
Proof.
  induction l as [|[k v] l IH]; [done|]. cbn. cbn in IH. by rewrite IH.
Qed.

Lemma sorted_items_str (l : list (string * option string)) :
  sorted_items (prod_map Some id <$> l)
  = Ok (prod_map Some id <$> sort_items l).
Proof.
  destruct l as [|x [|y l]]; [done..|].
  unfold sorted_items. rewrite mapM_str_keys. done.
Qed.

(** For a mapping whose keys are strings, [sorted(settings.items())]
    is the items put in the order of their keys: a rearrangement of the
    items in which each key is at most the next. *)
Theorem sorted_items_sorted (l : list (string * option string)) :
  sorted_items (prod_map Some id <$> l)
  = Ok (prod_map Some id <$> sort_items l)
  ∧ Sorted key_le (sort_items l)
  ∧ sort_items l ≡ₚ l.
Proof.
  split; [apply sorted_items_str|].
  split; [apply sort_items_Sorted|apply sort_items_perm].
Qed.

Section runs.
Context `{ElementTreeLib} (hw : host).
Implicit Types C D : list (option string * option string).

(** X5.  The diff does not depend on the order in which the changed
    settings are held: two mappings with the same items, their keys being
    distinct strings, give the same [before] and [after] texts. *)
Theorem diff_settings_order_independent C
    (l1 l2 : list (string * option string)) :
  NoDup l1.*1 →
  l1 ≡ₚ l2 →
  diff_settings C (prod_map Some id <$> l1)
  = diff_settings C (prod_map Some id <$> l2).
Proof.
  intros Hnd Hperm. unfold diff_settings. rewrite !sorted_items_str.
  pose proof (sort_items_Sorted l1) as Hs1.
  pose proof (sort_items_Sorted l2) as Hs2.
  pose proof (sort_items_perm l1) as Hp1.
  pose proof (sort_items_perm l2) as Hp2.
  assert (sort_items l1 = sort_items l2) as ->; [|done].
  apply (Sorted_unique_strong key_le); [|done..|].
  - intros x y Hx Hy Hxy Hyx. apply (same_key_same_item l1); [done| | |].
    + by rewrite <-Hp1.
    + by rewrite Hperm, <-Hp2.
    + by apply String.leb_antisym.
  - by rewrite Hp1, Hp2.
Qed.

Lemma filter_unchanged C D :
  (∀ kv, kv ∈ D → dict_lookup kv.1 C = Some kv.2) →
  filter_changed_settings C D = Ok [].
Proof.
  unfold filter_changed_settings.
  generalize (@nil (option string * option string)).
  induction D as [|[k v] D IH]; intros h Hsame; [done|].
  rewrite for_each_cons. cbn [fst snd].
  pose proof (Hsame (k, v) ltac:(left)) as Hk. cbn in Hk.
  rewrite (getitem_Some _ _ _ Hk), bind_Ok. unfold py_eq.
  rewrite bool_decide_eq_true_2 by done. cbn [negb]. rewrite bind_Ok.
  apply IH. intros kv Hkv. apply Hsame. by right.
Qed.

(** X6.  A desired state that the machine already has: every desired value
    equals the current one.  The run dumps, never loads, and ends well with
    [changed] false, the current state as facts (when facts are wanted) and
    an empty diff (when a diff is wanted). *)
Theorem conrep_unchanged (m : module_t) r C D :
  returncode (on_save hw) = 0%Z →
  saved hw = Ok r →
  parse_dat r = Ok C →
  requested (params m) = Ok D →
  (∀ kv, kv ∈ D → dict_lookup kv.1 C = Some kv.2) →
  run_module hw m
  = ([save_call (params m)],
     exit_json
       {| changed := false;
          ansible_facts_conrep := if facts (params m) then Some C else None;
          diff := if _diff m
                  then Some {| before := EmptyString; after := EmptyString |}
                  else None;
          debug := None |}).
Proof.
  intros Hrc Hsaved Hparse Hreq Hsame.
  assert (check_settings C D = Ok ()) as Hchk.
  { apply check_settings_known. intros k Hk.
    apply list_elem_of_fmap in Hk as (kv & -> & Hkv).
    unfold contains. rewrite (Hsame _ Hkv).
    by apply bool_decide_eq_true_2. }
  unfold run_module, run_body, run_plan, run_apply.
  unfold read_settings, write_settings, call_conrep.
  unfold mbind, M_bind, bind, lift, mret, M_ret, ret, modify.
  rewrite Hreq, Hsaved.
  destruct (decide (returncode (on_save hw) ≠ 0%Z)) as [Hn|_];
    [by destruct Hn|].
  cbn [mbind except_bind]. rewrite Hparse, Hchk, (filter_unchanged _ _ Hsame).
  by destruct (_diff m), (facts (params m)).
Qed.

(** X7.  The dump fails: the tool exits with another status than 0.  The
    run ends in [fail_json] with the message that carries the status and
    what the tool printed, [changed] false, and the tool is not run again. *)
Theorem conrep_dump_fails (m : module_t) D :
  requested (params m) = Ok D →
  returncode (on_save hw) ≠ 0%Z →
  run_module hw m
  = ([save_call (params m)],
     fail_json (failed_msg (on_save hw))
       {| changed := false; ansible_facts_conrep := None; diff := None;
          debug := None |}).
Proof.
  intros Hreq Hrc.
  unfold run_module, run_body, run_plan, read_settings, call_conrep.
  unfold mbind, M_bind, bind, lift, mret, M_ret, ret, modify.
  rewrite Hreq. by rewrite decide_True by done.
Qed.

(** X8.  The load fails: outside check mode, with something to change, the
    tool exits with another status than 0 on the rendered changes.  The run
    ends in [fail_json] with the tool's message, [changed] still false and
    no facts; the tool was run twice, to dump and to load. *)
Theorem conrep_load_fails (m : module_t) r C D :
  returncode (on_save hw) = 0%Z →
  saved hw = Ok r →
  parse_dat r = Ok C →
  requested (params m) = Ok D →
  wf D →
  (∀ k, k ∈ keys D → contains C k = true) →
  changedSubset C D ≠ [] →
  _diff m = false →
  check_mode m = false →
  returncode (on_load hw (render (changedSubset C D))) ≠ 0%Z →
  run_module hw m
  = ([save_call (params m);
      load_call (params m) (render (changedSubset C D))],
     fail_json (failed_msg (on_load hw (render (changedSubset C D))))
       {| changed := false; ansible_facts_conrep := None; diff := None;
          debug := None |}).
Proof.
  intros Hrc Hsaved Hparse Hreq Hwf Hin Hne Hdiff Hchk Hload.
  unfold run_module, run_body, run_plan, run_apply.
  unfold read_settings, write_settings, call_conrep.
  unfold mbind, M_bind, bind, lift, mret, M_ret, ret, modify.
  rewrite Hreq, Hsaved, Hdiff, Hchk.
  destruct (decide (returncode (on_save hw) ≠ 0%Z)) as [Hn|_];
    [by destruct Hn|].
  cbn [mbind except_bind]. rewrite Hparse, (check_settings_known _ _ Hin).
  rewrite (filter_changed_settings_known _ _ Hwf Hin). cbn [fst snd negb].
  rewrite (decide_True (P := changedSubset C D ≠ [])) by done.
  by rewrite decide_True by done.
Qed.
End runs.
End ConrepMore.

(** ** More about the structured adapter *)
Module HprcuMore.
Import Py PyFacts Hprcu HprcuFacts ConrepMore.

(** *** [doc2dict] and [doc_yield_changes] *)

Lemma doc2dict_loop (fs : list Element) : ∀ h x,
  for_each (λ h f,
    if decide (tag f ≠ "feature") then Ok h
    else if decide (get f "feature_type" = Some "option")
    then Ok (setitem (get f "feature_id") (get f "selected_option_id") h)
    else if decide (get f "feature_type" = Some "string")
    then v ← text_of (find f "feature_value");
         Ok (setitem (get f "feature_id") v h)
    else Ok h) h fs = Ok x →
  (wf h → wf x)
  ∧ (∀ k, k ∈ keys x ↔
          k ∈ keys h
          ∨ k ∈ (λ f, get f "feature_id")
                <$> filter (λ f, tag f = "feature"
                                 ∧ (get f "feature_type" = Some "option"
                                    ∨ get f "feature_type" = Some "string"))
                           fs).
Proof.
  induction fs as [|f fs IH]; intros h x Hrun.
  - cbn in Hrun. simplify_eq. split; [done|]. intros k.
    split; [by left|]. intros [?|?%elem_of_nil]; done.
  - rewrite for_each_cons in Hrun. rewrite filter_cons.
    destruct (decide (tag f ≠ "feature")) as [Ht|Ht].
    { rewrite bind_Ok in Hrun. rewrite decide_False by (by intros [? _]).
      by apply IH. }
    apply dec_stable in Ht.
    destruct (decide (get f "feature_type" = Some "option")) as [Ho|Ho].
    { rewrite bind_Ok in Hrun. rewrite decide_True by auto.
      destruct (IH _ _ Hrun) as [Hwf Hkeys].
      split; [intros ?; by apply Hwf, wf_setitem|].
      intros k. rewrite Hkeys, elem_of_keys_setitem, fmap_cons, elem_of_cons.
      split; [intros [[?|?]|?]; auto|intros [?|[?|?]]; auto]. }
    destruct (decide (get f "feature_type" = Some "string")) as [Hs|Hs].
    { destruct (text_of (find f "feature_value")) as [v|]; [|done].
      rewrite !bind_Ok in Hrun. rewrite decide_True by auto.
      destruct (IH _ _ Hrun) as [Hwf Hkeys].
      split; [intros ?; by apply Hwf, wf_setitem|].
      intros k. rewrite Hkeys, elem_of_keys_setitem, fmap_cons, elem_of_cons.
      split; [intros [[?|?]|?]; auto|intros [?|[?|?]]; auto]. }
    rewrite bind_Ok in Hrun.
    rewrite decide_False by (by intros [_ [?|?]]). by apply IH.
Qed.

(** X10.  What [doc2dict] returns is a proper dict, its keys distinct, and
    its keys are the [feature_id]s of the features of type [option] or
    [string]; features of another type are left out. *)
Theorem doc2dict_keys (doc : Element) x :
  doc2dict doc = Ok x →
  wf x ∧ ∀ k, k ∈ keys x ↔ k ∈ feature_ids doc.
Proof.
  intros Hrun. destruct (doc2dict_loop _ _ _ Hrun) as [Hwf Hkeys].
  split; [apply Hwf, NoDup_nil_2|].
  intros k. rewrite Hkeys. unfold feature_ids.
  split; [intros [?%elem_of_nil|?]; done|by right].
Qed.

Lemma lookup_own {K V} `{EqDecision K} (d : list (K * V)) kv :
  wf d → kv ∈ d → dict_lookup kv.1 d = Some kv.2.
Proof.
  induction d as [|[k v] d IH]; intros Hwf Hin.
  - by apply elem_of_nil in Hin.
  - apply wf_cons in Hwf as [Hk Hwf]. cbn [dict_lookup].
    apply elem_of_cons in Hin as [->|Hin].
    + by rewrite decide_True.
    + rewrite decide_False; [by apply IH|].
      intros ->. apply Hk. by apply list_elem_of_fmap_2.
Qed.


(** X12.  A document against itself: whenever [doc2dict] can read it,
    [doc_yield_changes] returns [False]. *)
Theorem doc_yield_changes_same (doc : Element) x :
  doc2dict doc = Ok x → doc_yield_changes doc doc = Ok false.
Proof.
  intros Hx. destruct (doc2dict_loop _ _ _ Hx) as [Hwf _].
  specialize (Hwf (NoDup_nil_2 : wf [])).
  unfold doc_yield_changes. rewrite Hx, !bind_Ok.
  rewrite yield_scan_known by (intros k Hk; by apply contains_keys).
  f_equal. apply bool_decide_eq_false_2.
  intros (kv & Hkv & Hne)%Exists_exists. by rewrite lookup_own in Hne.
Qed.



(** *** What [apply_settings] leaves alone *)

Lemma same_but_setting_refl f : same_but_setting f f.
Proof. by repeat split. Qed.

Lemma blank_set_text_in v cs :
  blank_value <$> set_text_in "feature_value" v cs = blank_value <$> cs.
Proof.
  induction cs as [|c cs IH]; [done|]. cbn [set_text_in].
  destruct (decide (tag c = "feature_value")) as [Ht|Ht].
  - rewrite !fmap_cons. f_equal. unfold blank_value. cbn.
    by rewrite !decide_True.
  - rewrite !fmap_cons. by rewrite IH.
Qed.

Section edits.
Context `{ElementTreeLib}.
Implicit Types (h : list (string * option string)) (f : Element).

(** A name of [h]: [feature_name_of] and the lookup in [apply_feature]. *)
Lemma named_in h f name n v :
  tag f = "feature" →
  text_of (find f "feature_name") = Ok name →
  name ≫= (λ n, pair n <$> dict_lookup n h) = Some (n, v) →
  feature_name_of f = Some n ∧ dict_lookup n h = Some v ∧ n ∈ keys h.
Proof.
  intros Ht Hname%text_of_Ok Hin.
  destruct name as [n'|]; [|done]. cbn in Hin.
  destruct (dict_lookup n' h) as [v'|] eqn:Hl; [|done].
  cbn in Hin. simplify_eq. unfold feature_name_of.
  rewrite decide_True by done. repeat split; [done..|].
  destruct (decide (n ∈ keys h)) as [|Hn]; [done|].
  apply lookup_None in Hn. congruence.
Qed.

Lemma apply_feature_shape h cs f f' r :
  apply_feature h cs f = (f', r) →
  same_but_setting f f'
  ∧ ((∀ n, feature_name_of f = Some n → n ∉ keys h) → f' = f).
Proof.
  unfold apply_feature. intros Hrun.
  destruct (decide (tag f ≠ "feature")) as [Ht|Ht].
  { simplify_eq. split; [apply same_but_setting_refl|done]. }
  apply dec_stable in Ht.
  destruct (text_of (find f "feature_name")) as [name|] eqn:Hname.
  2:{ simplify_eq. split; [apply same_but_setting_refl|done]. }
  destruct (name ≫= λ n, pair n <$> dict_lookup n h) as [[n v]|] eqn:Hin.
  2:{ simplify_eq. split; [apply same_but_setting_refl|done]. }
  destruct (named_in _ _ _ _ _ Ht Hname Hin) as (Hn & _ & Hk).
  assert (same_but_setting f f') as Hsame; [|split; [done|]].
  2:{ intros Hnot. by destruct (Hnot n Hn). }
  cbn [fst snd] in Hrun.
  destruct (decide (get f "feature_type" = Some "option")).
  - destruct (option_ids f v) as [[|oid oids]|];
      simplify_eq; try apply same_but_setting_refl.
    repeat split; try done. intros k Hk'. by apply get_set_ne.
  - destruct (decide (get f "feature_type" = Some "string"));
      [|simplify_eq; apply same_but_setting_refl].
    destruct (find f "feature_value");
      simplify_eq; [|apply same_but_setting_refl].
    repeat split; try done. cbn [children]. apply blank_set_text_in.
Qed.

Lemma apply_loop_shape h fs : ∀ cs fs' r,
  apply_loop h cs fs = (fs', r) →
  Forall2 (λ f f', same_but_setting f f'
                   ∧ ((∀ n, feature_name_of f = Some n → n ∉ keys h) →
                      f' = f)) fs fs'.
Proof.
  induction fs as [|f fs IH]; intros cs fs' r Hrun; cbn in Hrun.
  - simplify_eq. constructor.
  - destruct (apply_feature h cs f) as [f1 [cs1|e]] eqn:Hf.
    + destruct (apply_loop h cs1 fs) as [fs1 r1] eqn:Hl. simplify_eq.
      constructor; [by eapply apply_feature_shape|by eapply IH].
    + simplify_eq. constructor; [by eapply apply_feature_shape|].
      apply Forall2_same_length_lookup. split; [done|].
      intros i x y Hx Hy. simplify_eq.
      split; [apply same_but_setting_refl|done].
Qed.

(** X15.  Whatever [apply_settings] does to a document, also when it
    raises half-way, the root and the number and order of its children stay,
    and each child stays what it was up to the setting it holds (the
    attribute [selected_option_id] and the text of [feature_value]); a
    child whose name is no key of the desired mapping stays as it is. *)
Theorem apply_settings_keeps_shape (doc doc' : Element) h r :
  apply_settings doc h = (doc', r) →
  tag doc' = tag doc ∧ attrib doc' = attrib doc
  ∧ text doc' = text doc ∧ tail doc' = tail doc
  ∧ Forall2 (λ f f', same_but_setting f f'
                     ∧ ((∀ n, feature_name_of f = Some n → n ∉ keys h) →
                        f' = f))
            (children doc) (children doc').
Proof.
  unfold apply_settings. intros Hrun.
  destruct (apply_loop h (false, []) (children doc)) as [fs r'] eqn:Hl.
  simplify_eq. cbn. repeat split. by eapply apply_loop_shape.
Qed.

(** *** The [changed] flag *)

Lemma option_ids_loop (v : option string) (cs : list Element) :
  ∀ acc oids,
  for_each (λ oids o,
    if decide (tag o = "option")
    then n ← text_of (find o "option_name");
         Ok (if py_eq n v then oids ++ [get o "option_id"] else oids)
    else Ok oids) acc cs = Ok oids →
  ∀ oid, oid ∈ oids →
    oid ∈ acc
    ∨ ∃ o, o ∈ cs ∧ tag o = "option"
           ∧ text_of (find o "option_name") = Ok v
           ∧ get o "option_id" = oid.
Proof.
  induction cs as [|o cs IH]; intros acc oids Hrun oid Hoid.
  - cbn in Hrun. simplify_eq. by left.
  - rewrite for_each_cons in Hrun.
    destruct (decide (tag o = "option")) as [Ht|Ht].
    + destruct (text_of (find o "option_name")) as [n|] eqn:Hn; [|done].
      rewrite !bind_Ok in Hrun. unfold py_eq in Hrun.
      destruct (decide (n = v)) as [->|Hnv].
      * rewrite bool_decide_eq_true_2 in Hrun by done.
        destruct (IH _ _ Hrun oid Hoid) as [Hacc|(o' & ? & ?)].
        -- apply elem_of_app in Hacc as [?|Hx%list_elem_of_singleton];
             [by left|].
           subst oid. right. exists o. repeat split; [left|done..].
        -- right. exists o'. split; [by right|done].
      * rewrite bool_decide_eq_false_2 in Hrun by done.
        destruct (IH _ _ Hrun oid Hoid) as [?|(o' & ? & ?)]; [by left|].
        right. exists o'. split; [by right|done].
    + rewrite bind_Ok in Hrun.
      destruct (IH _ _ Hrun oid Hoid) as [?|(o' & ? & ?)]; [by left|].
      right. exists o'. split; [by right|done].
Qed.

Lemma option_ids_head f (v : option string) oid oids :
  option_ids f v = Ok (oid :: oids) →
  ∃ o, o ∈ children f ∧ tag o = "option"
       ∧ text_of (find o "option_name") = Ok v
       ∧ get o "option_id" = oid.
Proof.
  intros Hrun.
  destruct (option_ids_loop _ _ _ _ Hrun oid ltac:(left))
    as [?%elem_of_nil|?]; done.
Qed.

Lemma set_text_in_same t v cs c :
  find_in t cs = Some c → text c = v → set_text_in t v cs = cs.
Proof.
  induction cs as [|c' cs IH]; cbn; [done|].
  destruct (decide (tag c' = t)) as [Ht|Ht].
  - intros [= ->] <-. by destruct c.
  - intros ? ?. by rewrite IH.
Qed.

Lemma set_same f k v :
  dict_lookup k (attrib f) = Some v → set f k v = f.
Proof. intros Hl. unfold set. rewrite setitem_id by done. by destruct f. Qed.

Lemma apply_feature_changed h (c0 : bool) seen f f' (c' : bool) seen' :
  apply_feature h (c0, seen) f = (f', Ok (c', seen')) →
  (∀ o, o ∈ children f → tag o = "option" → get o "option_id" ≠ None) →
  (c' = false → c0 = false ∧ f' = f)
  ∧ (c' = true → c0 = true ∨ f' ≠ f).
Proof.
  unfold apply_feature. intros Hrun Hids.
  destruct (decide (tag f ≠ "feature")) as [Ht|Ht].
  { simplify_eq. split; [done|by left]. }
  destruct (text_of (find f "feature_name")) as [name|]; [|done].
  destruct (name ≫= λ n, pair n <$> dict_lookup n h) as [[n v]|].
  2:{ simplify_eq. split; [done|by left]. }
  cbn [fst snd] in Hrun.
  destruct (decide (get f "feature_type" = Some "option")).
  - destruct (option_ids f v) as [[|oid oids]|] eqn:Hoids; try done.
    { by destruct (et_tostring f). }
    destruct (option_ids_head _ _ _ _ Hoids) as (o & Ho & Hto & _ & Hoid).
    pose proof (Hids o Ho Hto) as Hsome. rewrite Hoid in Hsome.
    simplify_eq. unfold py_eq.
    destruct (decide (get f "selected_option_id" = get o "option_id"))
      as [Heq|Hne].
    + rewrite bool_decide_eq_true_2 by done. cbn [negb].
      rewrite orb_false_r.
      assert (set f "selected_option_id" (get o "option_id") = f) as ->.
      { apply set_same. unfold get in Heq at 1.
        destruct (dict_lookup "selected_option_id" (attrib f)) as [x|];
          cbn in Heq; [by subst|]. by rewrite <-Heq in Hsome. }
      split; [done|by left].
    + rewrite bool_decide_eq_false_2 by done. cbn [negb].
      rewrite orb_true_r. split; [done|]. intros _. right. intros Hf.
      apply Hne. rewrite <-Hf at 1. by rewrite get_set_eq.
  - destruct (decide (get f "feature_type" = Some "string")); [|done].
    destruct (find f "feature_value") as [fv|] eqn:Hfv; [|done].
    simplify_eq. unfold py_eq.
    destruct (decide (text fv = v)) as [Heq|Hne].
    + rewrite bool_decide_eq_true_2 by done. cbn [negb].
      rewrite orb_false_r. unfold find in Hfv.
      rewrite (set_text_in_same _ _ _ _ Hfv Heq).
      split; [by destruct f|by left].
    + rewrite bool_decide_eq_false_2 by done. cbn [negb].
      rewrite orb_true_r. split; [done|]. intros _. right. intros Hf.
      apply Hne. apply (f_equal (λ e, find e "feature_value")) in Hf.
      unfold find in Hf, Hfv. cbn [children] in Hf.
      rewrite (find_in_set_text_eq _ _ _ _ Hfv), Hfv in Hf.
      injection Hf as Hf. apply (f_equal text) in Hf. cbn in Hf. congruence.
Qed.

Lemma apply_loop_changed h fs : ∀ (c0 : bool) seen fs' (c' : bool) seen',
  apply_loop h (c0, seen) fs = (fs', Ok (c', seen')) →
  (∀ f o, f ∈ fs → o ∈ children f → tag o = "option" →
          get o "option_id" ≠ None) →
  (c' = false → c0 = false ∧ fs' = fs)
  ∧ (c' = true → c0 = true ∨ fs' ≠ fs).
Proof.
  induction fs as [|f fs IH]; intros c0 seen fs' c' seen' Hrun Hids;
    cbn in Hrun.
  - simplify_eq. split; [done|by left].
  - destruct (apply_feature h (c0, seen) f) as [f1 [[c1 s1]|e]] eqn:Hf;
      [|by simplify_eq].
    destruct (apply_loop h (c1, s1) fs) as [fs1 r1] eqn:Hl. simplify_eq.
    destruct (apply_feature_changed _ _ _ _ _ _ _ Hf) as [Hf0 Hf1].
    { intros o. apply Hids. left. }
    destruct (IH _ _ _ _ _ Hl) as [Hl0 Hl1].
    { intros f' o Hf'. apply Hids. by right. }
    split.
    + intros Hc. destruct (Hl0 Hc) as [Hc1 ->].
      destruct (Hf0 Hc1) as [? ->]. done.
    + intros Hc. destruct (Hl1 Hc) as [Hc1|Hne].
      * destruct (Hf1 Hc1) as [?|Hne]; [by left|].
        right. intros [= ? ?]. done.
      * right. intros [= ? ?]. done.
Qed.

(** X16.  On a document whose options all have an [option_id],
    [apply_settings], when it succeeds, returns [changed] true exactly when
    it changed the document: false leaves the document as it was, true
    leaves another one. *)
Theorem apply_settings_changed_exact (doc doc' : Element) h (changed : bool) :
  options_have_ids doc →
  apply_settings doc h = (doc', Ok changed) →
  (changed = false → doc' = doc) ∧ (changed = true → doc' ≠ doc).
Proof.
  unfold apply_settings. intros Hids Hrun.
  destruct (apply_loop h (false, []) (children doc)) as [fs [[c seen]|e]]
    eqn:Hl; [|by simplify_eq].
  cbn [mbind except_bind fst snd] in Hrun.
  destruct (decide (length seen ≠ length h)); simplify_eq.
  destruct (apply_loop_changed _ _ _ _ _ _ _ Hl Hids) as [H0 H1].
  split.
  - intros Hc. destruct (H0 Hc) as [_ ->]. by destruct doc.
  - intros Hc. destruct (H1 Hc) as [?|Hne]; [done|].
    intros Hd. apply Hne. by rewrite <-Hd.
Qed.

(** *** Facts after the edits *)









(** X17.  [apply_settings] succeeds only on a desired mapping each of whose
    keys is the name of a feature of the document. *)
Theorem apply_settings_ok_names (doc doc' : Element) h (changed : bool) :
  apply_settings doc h = (doc', Ok changed) →
  ∀ k, k ∈ keys h → k ∈ feature_names doc.
Proof.
  intros Hrun k Hk.
  destruct (decide (k ∈ feature_names doc)) as [|Hn]; [done|].
  destruct (apply_settings_unknown_name doc h) as [e He]; [by eauto|].
  rewrite Hrun in He. done.
Qed.

End edits.

Section runs.
Context `{ElementTreeLib} (hw : host).

(** X14.  The dump fails: the tool exits with another status than 0.  The
    run ends in [fail_json] with the message that carries the status and
    what the tool printed, [changed] false, and the tool is not run again,
    whatever was asked for. *)
Theorem hprcu_dump_fails (m : module_t) :
  returncode (on_save hw) ≠ 0%Z →
  run_module hw m
  = ([save_call (params m)],
     fail_json (failed_msg (on_save hw))
       {| changed := false; ansible_facts_hprcu := None; diff := None;
          debug := None |}).
Proof.
  intros Hrc.
  unfold run_module, run_body, run_plan, read_settings, call_hprcu.
  unfold mbind, M_bind, bind, lift, mret, M_ret, ret, modify.
  by rewrite decide_True by done.
Qed.
End runs.
End HprcuMore.

(** ** The further theorems at concrete inputs *)
Module MoreRuns.
Import Py Examples.

(** Splits a membership in a list written out into its cases. *)
Ltac cases_in H :=
  repeat (apply elem_of_cons in H as [->|H]); [..|by apply elem_of_nil in H].

Lemma ht_doc_options_have_ids : Hprcu.options_have_ids ht_doc.
Proof.
  intros f o Hf Ho Ht. cbn in Hf. cases_in Hf.
  cbn in Ho. cases_in Ho; done.
Defined.


Lemma parse_dat_keys_witness :
  let C := [(Some "Turbo", Some "Disabled");
            (Some "PowerMonitoring", Some "Enabled")] in
  wf C ∧ ∀ k, k ∈ keys C ↔ k ∈ Conrep.section_names twice_doc.
Proof.
  intros C. apply (ConrepMore.parse_dat_keys twice_doc C).
  vm_compute. reflexivity.
Defined.

Lemma parse_dat_last_wins_witness :
  dict_lookup (get (section_ "Turbo" "Disabled") "name")
    [(Some "Turbo", Some "Disabled"); (Some "PowerMonitoring", Some "Enabled")]
  = Some (text (section_ "Turbo" "Disabled")).
Proof.
  apply (ConrepMore.parse_dat_last_wins twice_doc _
           [section_ "Turbo" "Enabled"; leaf "Comment" "x";
            section_ "PowerMonitoring" "Enabled"]
           (section_ "Turbo" "Disabled") []).
  - vm_compute. reflexivity.
  - reflexivity.
  - reflexivity.
  - reflexivity.
  - intros e' He'. by apply elem_of_nil in He'.
Defined.

Lemma diff_settings_order_independent_witness :
  Conrep.diff_settings power_C
    (prod_map Some id
     <$> [("Turbo", Some "Off"); ("PowerMonitoring", Some "Disabled")])
  = Conrep.diff_settings power_C
      (prod_map Some id
       <$> [("PowerMonitoring", Some "Disabled"); ("Turbo", Some "Off")]).
Proof.
  apply ConrepMore.diff_settings_order_independent.
  - apply (bool_decide_unpack _). vm_compute. exact I.
  - apply perm_swap.
Defined.

Lemma conrep_unchanged_witness :
  Conrep.run_module (healthy power_doc)
    (conrep_module [(Some "Turbo", Some "Enabled")] true false)
  = ([conrep_save],
     Conrep.exit_json
       {| Conrep.changed := false;
          Conrep.ansible_facts_conrep := Some power_C;
          Conrep.diff :=
            Some {| Conrep.before := EmptyString;
                    Conrep.after := EmptyString |};
          Conrep.debug := None |}).
Proof.
  apply (ConrepMore.conrep_unchanged (healthy power_doc)
           (conrep_module [(Some "Turbo", Some "Enabled")] true false)
           power_doc power_C [(Some "Turbo", Some "Enabled")]).
  - reflexivity.
  - reflexivity.
  - vm_compute. reflexivity.
  - reflexivity.
  - intros kv Hkv. apply list_elem_of_singleton in Hkv. subst kv.
    reflexivity.
Defined.

Lemma conrep_dump_fails_witness :
  Conrep.run_module broken (conrep_module power_D true false)
  = ([conrep_save],
     Conrep.fail_json "Conrep failed (rc=1): out err"
       {| Conrep.changed := false; Conrep.ansible_facts_conrep := None;
          Conrep.diff := None; Conrep.debug := None |}).
Proof.
  apply (ConrepMore.conrep_dump_fails broken
           (conrep_module power_D true false) power_D).
  - reflexivity.
  - cbn. lia.
Defined.

Lemma conrep_load_fails_witness :
  Conrep.run_module (refusing power_doc) (conrep_module power_D false false)
  = ([conrep_save;
      Conrep.load_call (Conrep.params (conrep_module power_D false false))
        (Conrep.render (Conrep.changedSubset power_C power_D))],
     Conrep.fail_json
       (Conrep.failed_msg
          (on_load (refusing power_doc)
             (Conrep.render (Conrep.changedSubset power_C power_D))))
       {| Conrep.changed := false; Conrep.ansible_facts_conrep := None;
          Conrep.diff := None; Conrep.debug := None |}).
Proof.
  apply (ConrepMore.conrep_load_fails (refusing power_doc)
           (conrep_module power_D false false) power_doc power_C power_D).
  - reflexivity.
  - reflexivity.
  - vm_compute. reflexivity.
  - reflexivity.
  - apply NoDup_singleton.
  - intros k Hk. apply list_elem_of_singleton in Hk. subst k. reflexivity.
  - vm_compute. discriminate.
  - reflexivity.
  - reflexivity.
  - cbn. lia.
Defined.

Lemma run_module_facts_witness :
  ∃ tr res,
    Conrep.run_module (healthy power_doc) (conrep_module power_D false false)
    = (tr, Conrep.exit_json res)
    ∧ Conrep.ansible_facts_conrep res
      = Some (Conrep.merge_dicts power_C
                (Conrep.changedSubset power_C power_D))
    ∧ Conrep.changed res
      = bool_decide (Conrep.changedSubset power_C power_D ≠ []).
Proof.
  apply (ConrepFacts.run_module_facts (healthy power_doc)
           (conrep_module power_D false false) power_doc power_C power_D).
  - reflexivity.
  - reflexivity.
  - vm_compute. reflexivity.
  - reflexivity.
  - apply NoDup_singleton.
  - intros k Hk. apply list_elem_of_singleton in Hk. subst k. reflexivity.
  - reflexivity.
  - reflexivity.
  - right. reflexivity.
Defined.

Lemma doc2dict_keys_witness :
  let x := [(Some "1", Some "b"); (Some "2", Some "c")] in
  wf x ∧ ∀ k, k ∈ keys x ↔ k ∈ Hprcu.feature_ids cand_AB.
Proof.
  intros x. apply (HprcuMore.doc2dict_keys cand_AB x).
  vm_compute. reflexivity.
Defined.


Lemma doc_yield_changes_same_witness :
  Hprcu.doc_yield_changes cand_AB cand_AB = Ok false.
Proof.
  apply (HprcuMore.doc_yield_changes_same cand_AB
           [(Some "1", Some "b"); (Some "2", Some "c")]).
  vm_compute. reflexivity.
Defined.


Lemma hprcu_dump_fails_witness :
  Hprcu.run_module broken
    (hprcu_module [("Hyperthreading", Some "Disabled")] EmptyString
       true false)
  = ([hprcu_save],
     Hprcu.fail_json "hprcu failed (rc=1): out err"
       {| Hprcu.changed := false; Hprcu.ansible_facts_hprcu := None;
          Hprcu.diff := None; Hprcu.debug := None |}).
Proof.
  apply (HprcuMore.hprcu_dump_fails broken
           (hprcu_module [("Hyperthreading", Some "Disabled")] EmptyString
              true false)).
  cbn. lia.
Defined.

Lemma apply_settings_keeps_shape_witness :
  let h := [("Hyperthreading", Some "Disabled")] in
  let doc' := hprcu_doc [hyperthreading "2"] in
  tag doc' = tag ht_doc ∧ attrib doc' = attrib ht_doc
  ∧ text doc' = text ht_doc ∧ tail doc' = tail ht_doc
  ∧ Forall2 (λ f f', Hprcu.same_but_setting f f'
                     ∧ ((∀ n, Hprcu.feature_name_of f = Some n →
                              n ∉ keys h) → f' = f))
            (children ht_doc) (children doc').
Proof.
  intros h doc'.
  apply (HprcuMore.apply_settings_keeps_shape ht_doc doc' h (Ok true)).
  vm_compute. reflexivity.
Defined.

Lemma apply_settings_changed_exact_witness :
  (true = false → hprcu_doc [hyperthreading "2"] = ht_doc)
  ∧ (true = true → hprcu_doc [hyperthreading "2"] ≠ ht_doc).
Proof.
  apply (HprcuMore.apply_settings_changed_exact ht_doc
           (hprcu_doc [hyperthreading "2"])
           [("Hyperthreading", Some "Disabled")] true).
  - exact ht_doc_options_have_ids.
  - vm_compute. reflexivity.
Defined.

Lemma apply_settings_ok_names_witness :
  "Hyperthreading" ∈ Hprcu.feature_names ht_doc.
Proof.
  apply (HprcuMore.apply_settings_ok_names ht_doc
           (hprcu_doc [hyperthreading "2"])
           [("Hyperthreading", Some "Disabled")] true).
  - vm_compute. reflexivity.
  - left.
Defined.


Lemma unknown_name_no_load_witness :
  existsb is_load
    (Hprcu.run_module (healthy ht_doc)
       (hprcu_module [("Hyperthreading", Some "Disabled");
                      ("Turbo", Some "Off")]
          EmptyString true false)).1 = false.
Proof.
  apply (HprcuFacts.unknown_name_no_load (healthy ht_doc)
           (hprcu_module [("Hyperthreading", Some "Disabled");
                          ("Turbo", Some "Off")] EmptyString true false)
           ht_doc).
  - reflexivity.
  - exists "Turbo". split.
    + cbn. right. left.
    + vm_compute. intros Hin. apply list_elem_of_singleton in Hin.
      discriminate.
Defined.

End MoreRuns.
